(** * Biometric attendance backend: a shallow embedding of the Express servers

    The repository holds three closely related servers:
    - the facial variant (in-memory arrays, [identifyUserFromVector]);
    - the fingerprint variant (in-memory arrays, [identifyUserFromFingerprint]);
    - the database-backed fingerprint variant (Mongoose models).

    The two in-memory variants share every handler up to field names, the
    identification stub and message texts; they are embedded once, with a
    [Modality] parameter.  The database-backed variant lives in [Module Mongo]
    (report, identification) and [Module MongoApi] (enrollment, scan).

    Conventions.
    - A handler is a function from the configuration, the values it reads from
      its environment (clock, random bytes), the store and the request to an
      [Outcome]: the response, the store afterwards and the console lines.
    - [req.body] is the object produced by [bodyParser.json()]; a JSON value is
      a [JValue], a missing property is [None] (JavaScript's [undefined]).
    - A timestamp is the number of milliseconds since the epoch: the source
      stores [new Date().toISOString()] and compares [new Date(s)] values, and
      that round trip is exact at millisecond resolution. *)

From Stdlib Require Import List String Ascii ZArith Lia Bool.
From Stdlib Require Import Strings.Byte.
From Stdlib Require Import Permutation Sorted.
Import ListNotations.
Set Warnings "-register-all".
Local Open Scope string_scope.
Local Open Scope list_scope.

(* ------------------------------------------------------------------ *)
(** ** JavaScript values *)

(** JSON values as they arrive in a request body.  The numeric payload is kept
    as an integer: the handlers never compute with a number, they only test a
    value for truthiness. *)
Inductive JValue : Type :=
| JNull
| JBool (b : bool)
| JNum (n : Z)
| JStr (s : string)
| JArr (items : list JValue)
| JObj (fields : list (string * JValue)).

(** [!!v] *)
Definition truthy (v : JValue) : bool :=
  match v with
  | JNull => false
  | JBool b => b
  | JNum n => negb (n =? 0)%Z
  | JStr s => negb (s =? "")
  | JArr _ => true
  | JObj _ => true
  end.

(** [Array.isArray(v)] *)
Definition isArray (v : JValue) : bool :=
  match v with
  | JArr _ => true
  | _ => false
  end.

(** [v.length]: defined on arrays and strings, [undefined] elsewhere. *)
Definition js_length (v : JValue) : option nat :=
  match v with
  | JArr items => Some (List.length items)
  | JStr s => Some (String.length s)
  | _ => None
  end.

(** [v.length < n]; a comparison with [undefined] is false. *)
Definition length_lt (v : JValue) (n : nat) : bool :=
  match js_length v with
  | Some k => Nat.ltb k n
  | None => false
  end.

(** [v.length > n]; a comparison with [undefined] is false. *)
Definition length_gt (v : JValue) (n : nat) : bool :=
  match js_length v with
  | Some k => Nat.ltb n k
  | None => false
  end.

(** Property read on a parsed JSON object. *)
Fixpoint prop (key : string) (o : list (string * JValue)) : option JValue :=
  match o with
  | [] => None
  | (k, v) :: rest => if k =? key then Some v else prop key rest
  end.

(** A template literal: literal chunks and interpolated values. *)
Inductive Piece : Type :=
| Lit (s : string)
| Interp (v : JValue).

Definition Text : Type := list Piece.

(* ------------------------------------------------------------------ *)
(** ** [Array.prototype.sort] with a comparator

    The sort of the language is stable, and the source's comparators are
    differences of timestamps, hence consistent: the result is the one stable
    arrangement, which a stable insertion sort computes.  [cmp a b > 0] means
    that [a] goes after [b]. *)

Section JsSort.
Context {A : Type} (cmp : A -> A -> Z).

Fixpoint sort_insert (x : A) (l : list A) : list A :=
  match l with
  | [] => [x]
  | y :: l' => if (cmp x y <=? 0)%Z then x :: y :: l' else y :: sort_insert x l'
  end.

Fixpoint js_sort (l : list A) : list A :=
  match l with
  | [] => []
  | x :: l' => sort_insert x (js_sort l')
  end.
End JsSort.

(* ------------------------------------------------------------------ *)
(** ** Data layer *)

Inductive EventType : Type := IN | OUT.

Definition EventType_eqb (a b : EventType) : bool :=
  match a, b with
  | IN, IN => true
  | OUT, OUT => true
  | _, _ => false
  end.

Definition EventType_name (t : EventType) : string :=
  match t with
  | IN => "IN"
  | OUT => "OUT"
  end.

(** An element of [users]: [{ id, name, facialVector, createdAt }] in the
    facial variant, [{ id, name, fingerprintTemplate, createdAt }] in the
    fingerprint variant.  [template] stands for either vector field. *)
Module User.
Record t : Type := mk {
  id : string;
  name : JValue;
  template : list JValue;
  createdAt : Z
}.
End User.

(** An element of [attendanceRecords]:
    [{ id, userId, timestamp, type, device }]. *)
Module Attendance.
Record t : Type := mk {
  id : string;
  userId : string;
  timestamp : Z;
  type : EventType;
  device : string
}.
End Attendance.

(** An element of the report: [{ ...record, userName }]. *)
Module Detailed.
Record t : Type := mk {
  record : Attendance.t;
  userName : JValue
}.
Definition timestamp (d : t) : Z := Attendance.timestamp (record d).
Definition id (d : t) : string := Attendance.id (record d).
End Detailed.

Record State : Type := mkState {
  users : list User.t;
  attendanceRecords : list Attendance.t
}.

Definition initial_state : State := mkState [] [].

(* ------------------------------------------------------------------ *)
(** ** Requests, environment, responses *)

Inductive Method : Type := GET | POST | OPTIONS | OTHER.

(** A request as the routes see it.  [path] is the list of path segments in
    the form the router compares them (lower case, no empty segment),
    [x_api_key] is [req.headers['x-api-key']], [query_userId] is
    [req.query.userId]. *)
Record Request : Type := mkRequest {
  method : Method;
  path : list string;
  x_api_key : option string;
  query_userId : option string;
  body : list (string * JValue);
  ip : string
}.

(** What one request reads from outside the store: the clock ([new Date()])
    and four random bytes ([crypto.randomBytes(4)]). *)
Record Env : Type := mkEnv {
  now : Z;
  randomBytes4 : byte * byte * byte * byte
}.

Record Config : Type := mkConfig {
  REQUIRED_API_KEY : string
}.

Inductive Modality : Type := Facial | Fingerprint.

Inductive Body : Type :=
| BMessage (message : Text)
    (* { message } *)
| BUser (message : Text) (id : string) (name : JValue) (createdAt : Z)
    (* { message, user: { id, name, createdAt } } *)
| BRecord (message : Text) (timestamp : Z) (type : EventType)
    (* { message, record: { timestamp, type } } *)
| BReport (totalRecords : nat) (report : list Detailed.t)
    (* { totalRecords, report } *)
| BHealth (status service : string) (count : nat)
    (* { status, service, mockDbUsers | mockDbStudents } *)
| BNoRoute.
    (* the framework's answer when no route matches *)

Record Response : Type := mkResponse {
  status : nat;
  json : Body
}.

Inductive LogLine : Type :=
| AuthValidated (path : list string)
| AuthDenied (ip : string)
| MatcherMalformed
| MatcherMatched (id : string)
| UserEnrolled (name : JValue) (id : string)
| AttendanceFailed
| AttendanceRecorded (type : EventType) (userName : JValue) (userId : string).

Record Outcome : Type := mkOutcome {
  response : Response;
  state : State;
  console : list LogLine
}.

(* ------------------------------------------------------------------ *)
(** ** [Buffer.toString('hex')] *)

Definition hex_digit (n : nat) : ascii :=
  match n with
  | 0 => "0" | 1 => "1" | 2 => "2" | 3 => "3" | 4 => "4"
  | 5 => "5" | 6 => "6" | 7 => "7" | 8 => "8" | 9 => "9"
  | 10 => "a" | 11 => "b" | 12 => "c" | 13 => "d" | 14 => "e"
  | _ => "f"
  end%char.

Definition hex_of_byte (b : byte) : string :=
  let n := Byte.to_nat b in
  String (hex_digit (n / 16)) (String (hex_digit (n mod 16)) EmptyString).

Definition toHex (bs : byte * byte * byte * byte) : string :=
  let '(b0, b1, b2, b3) := bs in
  hex_of_byte b0 ++ hex_of_byte b1 ++ hex_of_byte b2 ++ hex_of_byte b3.

(* ------------------------------------------------------------------ *)
(** ** Security middleware *)

(** [apiKey && apiKey === REQUIRED_API_KEY] *)
Definition apiAuth (cfg : Config) (req : Request) : bool :=
  match x_api_key req with
  | Some apiKey => negb (apiKey =? "") && (apiKey =? REQUIRED_API_KEY cfg)
  | None => false
  end.

Definition unauthorized (st : State) (req : Request) : Outcome :=
  mkOutcome
    (mkResponse 401
       (BMessage [Lit "Unauthorized: Invalid or missing X-API-Key header."]))
    st
    [AuthDenied (ip req)].

(* ------------------------------------------------------------------ *)
(** ** Identification stubs *)

(** Facial variant.  The second component is what the stub writes to the
    console. *)
Definition identifyUserFromVector (users : list User.t) (incomingVector : JValue)
  : option string * list LogLine :=
  if negb (truthy incomingVector) || length_lt incomingVector 100 then
    (None, [MatcherMalformed])
  else
    match users with
    | mockUser :: _ =>
        if length_gt incomingVector 100 then
          (Some (User.id mockUser), [MatcherMatched (User.id mockUser)])
        else (None, [])
    | [] => (None, [])
    end.

(** Fingerprint variant. *)
Definition identifyUserFromFingerprint (users : list User.t) (incomingTemplate : JValue)
  : option string * list LogLine :=
  if negb (truthy incomingTemplate) || negb (isArray incomingTemplate)
     || length_lt incomingTemplate 50 then
    (None, [MatcherMalformed])
  else
    match users with
    | mockUser :: _ =>
        (Some (User.id mockUser), [MatcherMatched (User.id mockUser)])
    | [] => (None, [])
    end.

Definition identifyUser (m : Modality) : list User.t -> JValue -> option string * list LogLine :=
  match m with
  | Facial => identifyUserFromVector
  | Fingerprint => identifyUserFromFingerprint
  end.

(** The length below which the stub refuses a probe. *)
Definition floor (m : Modality) : nat :=
  match m with
  | Facial => 100
  | Fingerprint => 50
  end.

(* ------------------------------------------------------------------ *)
(** ** Variant-specific names and texts *)

Definition template_field (m : Modality) : string :=
  match m with
  | Facial => "facialVector"
  | Fingerprint => "fingerprintTemplate"
  end.

Definition probe_field (m : Modality) : string :=
  match m with
  | Facial => "incomingVector"
  | Fingerprint => "incomingTemplate"
  end.

Definition enroll_missing_text (m : Modality) : Text :=
  match m with
  | Facial => [Lit "Missing required fields: name and facialVector must be provided."]
  | Fingerprint => [Lit "Missing required fields: name and fingerprintTemplate must be provided."]
  end.

Definition enrolled_text (m : Modality) : Text :=
  match m with
  | Facial => [Lit "User successfully enrolled and facial data stored."]
  | Fingerprint => [Lit "Student successfully enrolled and fingerprint data stored."]
  end.

Definition probe_missing_text (m : Modality) : Text :=
  match m with
  | Facial => [Lit "Missing required field: incomingVector."]
  | Fingerprint => [Lit "Missing required field: incomingTemplate."]
  end.

Definition not_recognized_text (m : Modality) : Text :=
  match m with
  | Facial => [Lit "Facial identity not recognized. Please try again."]
  | Fingerprint => [Lit "Fingerprint not recognized. Please try again."]
  end.

Definition unknown_name (m : Modality) : JValue :=
  match m with
  | Facial => JStr "Unknown User"
  | Fingerprint => JStr "Unknown Student"
  end.

Definition recorded_text (userName : JValue) (eventType : EventType) : Text :=
  [Interp userName;
   Lit ", your attendance has been recorded successfully. You are Clocked ";
   Lit (EventType_name eventType); Lit "."].

Definition not_found_text (m : Modality) (userId : string) : Text :=
  match m with
  | Facial => [Lit "User ID "; Lit userId; Lit " not found."]
  | Fingerprint => [Lit "Student ID "; Lit userId; Lit " not found."]
  end.

Definition service_name (m : Modality) : string :=
  match m with
  | Facial => "Facial Biometric Backend"
  | Fingerprint => "Fingerprint Biometric Backend"
  end.

(* ------------------------------------------------------------------ *)
(** ** Routes of the in-memory variants *)

(** [users.find(u => u.id === userId)] *)
Definition find_user (us : list User.t) (userId : string) : option User.t :=
  find (fun u => User.id u =? userId) us.

(** [POST /api/v1/users/enroll] *)
Definition enroll (m : Modality) (env : Env) (st : State) (req : Request) : Outcome :=
  let name := prop "name" (body req) in
  let vector := prop (template_field m) (body req) in
  match name, vector with
  | Some name, Some (JArr (x :: xs)) =>
      if truthy name then
        let newUserId := toHex (randomBytes4 env) in
        let newUser := User.mk newUserId name (x :: xs) (now env) in
        mkOutcome
          (mkResponse 201
             (BUser (enrolled_text m) (User.id newUser) (User.name newUser)
                (User.createdAt newUser)))
          (mkState (users st ++ [newUser]) (attendanceRecords st))
          [UserEnrolled (User.name newUser) (User.id newUser)]
      else
        mkOutcome (mkResponse 400 (BMessage (enroll_missing_text m))) st []
  | _, _ =>
      mkOutcome (mkResponse 400 (BMessage (enroll_missing_text m))) st []
  end.

(** The comparator of both sorts:
    [(a, b) => new Date(b.timestamp) - new Date(a.timestamp)]. *)
Definition newest_first (a b : Attendance.t) : Z :=
  (Attendance.timestamp b - Attendance.timestamp a)%Z.

Definition newest_first_detailed (a b : Detailed.t) : Z :=
  (Detailed.timestamp b - Detailed.timestamp a)%Z.

(** [attendanceRecords.filter(record => record.userId === userId)] *)
Definition records_of (userId : string) (records : list Attendance.t) : list Attendance.t :=
  filter (fun record => Attendance.userId record =? userId) records.

(** [attendanceRecords.filter(..).sort(..)[0]] *)
Definition lastRecord (userId : string) (records : list Attendance.t) : option Attendance.t :=
  hd_error (js_sort newest_first (records_of userId records)).

(** [(!lastRecord || lastRecord.type === 'OUT') ? 'IN' : 'OUT'] *)
Definition eventType (last : option Attendance.t) : EventType :=
  match last with
  | None => IN
  | Some r =>
      match Attendance.type r with
      | OUT => IN
      | IN => OUT
      end
  end.

(** [users.find(u => u.id === userId)?.name || 'Unknown User'] *)
Definition display_name (m : Modality) (us : list User.t) (userId : string) : JValue :=
  match find_user us userId with
  | Some u => if truthy (User.name u) then User.name u else unknown_name m
  | None => unknown_name m
  end.

(** [POST /api/v1/attendance/check_in_out] *)
Definition check_in_out (m : Modality) (env : Env) (st : State) (req : Request) : Outcome :=
  match prop (probe_field m) (body req) with
  | Some (JArr (x :: xs)) =>
      let incoming := JArr (x :: xs) in
      let '(found, lines) := identifyUser m (users st) incoming in
      match found with
      | Some userId =>
          if userId =? "" then
            mkOutcome (mkResponse 404 (BMessage (not_recognized_text m))) st
              (lines ++ [AttendanceFailed])
          else
            let last := lastRecord userId (attendanceRecords st) in
            let ty := eventType last in
            let newRecord :=
              Attendance.mk (toHex (randomBytes4 env)) userId (now env) ty (ip req) in
            let userName := display_name m (users st) userId in
            mkOutcome
              (mkResponse 200
                 (BRecord (recorded_text userName ty)
                    (Attendance.timestamp newRecord) (Attendance.type newRecord)))
              (mkState (users st) (attendanceRecords st ++ [newRecord]))
              (lines ++ [AttendanceRecorded ty userName userId])
      | None =>
          mkOutcome (mkResponse 404 (BMessage (not_recognized_text m))) st
            (lines ++ [AttendanceFailed])
      end
  | _ =>
      mkOutcome (mkResponse 400 (BMessage (probe_missing_text m))) st []
  end.

(** [report.map(record => ({ ...record, userName: user ? user.name : 'N/A' }))] *)
Definition detail (us : list User.t) (record : Attendance.t) : Detailed.t :=
  Detailed.mk record
    match find_user us (Attendance.userId record) with
    | Some user => User.name user
    | None => JStr "N/A"
    end.

Definition detailedReport (us : list User.t) (report : list Attendance.t) : list Detailed.t :=
  js_sort newest_first_detailed (map (detail us) report).

Definition report_ok (st : State) (report : list Attendance.t) : Outcome :=
  let detailed := detailedReport (users st) report in
  mkOutcome (mkResponse 200 (BReport (List.length detailed) detailed)) st [].

(** [GET /api/v1/attendance/report]; [req.params.userId] is always undefined
    on this route, so [userId] is the query parameter when it is truthy. *)
Definition report (m : Modality) (st : State) (req : Request) : Outcome :=
  match query_userId req with
  | Some userId =>
      if userId =? "" then report_ok st (attendanceRecords st)
      else
        let filtered := records_of userId (attendanceRecords st) in
        if existsb (fun u => User.id u =? userId) (users st) then report_ok st filtered
        else mkOutcome (mkResponse 404 (BMessage (not_found_text m userId))) st []
  | None => report_ok st (attendanceRecords st)
  end.

(** [GET /health] *)
Definition health (m : Modality) (st : State) : Outcome :=
  mkOutcome (mkResponse 200 (BHealth "ok" (service_name m) (List.length (users st)))) st [].

Definition no_route (st : State) (lines : list LogLine) : Outcome :=
  mkOutcome (mkResponse 404 BNoRoute) st lines.

Definition prepend (lines : list LogLine) (o : Outcome) : Outcome :=
  mkOutcome (response o) (state o) (lines ++ console o).

(** Route matching on path segments. *)
Fixpoint path_eqb (p q : list string) : bool :=
  match p, q with
  | [], [] => true
  | a :: p', b :: q' => (a =? b) && path_eqb p' q'
  | _, _ => false
  end.

Definition Method_eqb (a b : Method) : bool :=
  match a, b with
  | GET, GET => true
  | POST, POST => true
  | OPTIONS, OPTIONS => true
  | OTHER, OTHER => true
  | _, _ => false
  end.

(** [router.post(p, ..)] / [router.get(p, ..)] matches the request. *)
Definition route_matches (mth : Method) (p : list string) (req : Request)
    (sub : list string) : bool :=
  Method_eqb (method req) mth && path_eqb sub p.

(** The part of the path below a mount point, when the path is under it. *)
Fixpoint mounted_under (mount p : list string) : option (list string) :=
  match mount, p with
  | [], sub => Some sub
  | a :: mount', b :: p' => if a =? b then mounted_under mount' p' else None
  | _ :: _, [] => None
  end.

(** The routes of the router, in registration order. *)
Definition routes (m : Modality) (env : Env) (st : State) (req : Request)
    (sub : list string) : Outcome :=
  if route_matches POST ["users"; "enroll"] req sub then enroll m env st req
  else if route_matches POST ["attendance"; "check_in_out"] req sub then
    check_in_out m env st req
  else if route_matches GET ["attendance"; "report"] req sub then report m st req
  else no_route st [].

(** The router mounted on [/api/v1]: [router.use(apiAuth)] runs before every
    route of the router. *)
Definition router (m : Modality) (cfg : Config) (env : Env) (st : State)
    (req : Request) (sub : list string) : Outcome :=
  if apiAuth cfg req then prepend [AuthValidated sub] (routes m env st req sub)
  else unauthorized st req.

(** The application: [app.use('/api/v1', router)], then [app.get('/health')]. *)
Definition app (m : Modality) (cfg : Config) (env : Env) (st : State) (req : Request) : Outcome :=
  match mounted_under ["api"; "v1"] (path req) with
  | Some sub => router m cfg env st req sub
  | None =>
      if route_matches GET ["health"] req (path req) then health m st
      else no_route st []
  end.

(** A run of the application over a sequence of requests, each with the
    values its handler reads from the environment. *)
Fixpoint run (m : Modality) (cfg : Config) (reqs : list (Env * Request)) (st : State) : State :=
  match reqs with
  | [] => st
  | (env, req) :: rest => run m cfg rest (state (app m cfg env st req))
  end.

(* ------------------------------------------------------------------ *)
(** ** The database-backed fingerprint variant *)

Module Mongo.

(** A document of the [User] model. *)
Module UserDoc.
Record t : Type := mk {
  _id : string;
  name : string;
  fingerprintTemplate : list JValue;
  createdAt : Z
}.
End UserDoc.

(** A document of the [Attendance] model. *)
Module AttendanceDoc.
Record t : Type := mk {
  _id : string;
  userId : string;
  timestamp : Z;
  type : EventType;
  device : string
}.
End AttendanceDoc.

(** The collections, in insertion order, and whether the connection is
    usable; a query on an unusable connection rejects and the handler's
    [catch] answers 500. *)
Record Db : Type := mkDb {
  connected : bool;
  User : list UserDoc.t;
  Attendance : list AttendanceDoc.t
}.

(** An attendance document after [.populate('userId', 'name')]: [userId]
    becomes [{ _id, name }], or [null] when the user is gone. *)
Record Populated : Type := mkPopulated {
  doc : AttendanceDoc.t;
  populated_user : option (string * string)
}.

Inductive MBody : Type :=
| MMessage (message : Text)
| MReport (totalRecords : nat) (report : list Populated).

Record MResponse : Type := mkMResponse {
  mstatus : nat;
  mjson : MBody
}.

Definition is_hex (c : ascii) : bool :=
  let n := nat_of_ascii c in
  (Nat.leb 48 n && Nat.leb n 57) || (Nat.leb 65 n && Nat.leb n 70)
  || (Nat.leb 97 n && Nat.leb n 102).

(** [mongoose.Types.ObjectId.isValid] on a string, as the driver documents
    it: twelve characters, or twenty-four hexadecimal digits. *)
Definition ObjectId_isValid (s : string) : bool :=
  Nat.eqb (String.length s) 12
  || (Nat.eqb (String.length s) 24 && forallb is_hex (list_ascii_of_string s)).

(** The identifier a query value names once the driver has cast it to the
    [ObjectId] type of the schema: twenty-four hex digits name the same
    identifier in either letter case, twelve characters name the identifier
    made of their bytes.  (The route lets only values that pass [isValid]
    reach a query.)  Identifiers held by documents are in the driver's
    printed form, twenty-four lower-case hex digits. *)
Definition lower_hex (c : ascii) : ascii :=
  let n := nat_of_ascii c in
  if Nat.leb 65 n && Nat.leb n 70 then ascii_of_nat (n + 32) else c.

Fixpoint lower_hex_string (s : string) : string :=
  match s with
  | EmptyString => EmptyString
  | String c rest => String (lower_hex c) (lower_hex_string rest)
  end.

Fixpoint hex_of_string (s : string) : string :=
  match s with
  | EmptyString => EmptyString
  | String c rest =>
      let n := nat_of_ascii c in
      String (hex_digit (n / 16)) (String (hex_digit (n mod 16)) (hex_of_string rest))
  end.

Definition castObjectId (s : string) : string :=
  if Nat.eqb (String.length s) 12 then hex_of_string s else lower_hex_string s.

Definition populate (us : list UserDoc.t) (d : AttendanceDoc.t) : Populated :=
  mkPopulated d
    match find (fun u => UserDoc._id u =? AttendanceDoc.userId d) us with
    | Some u => Some (UserDoc._id u, UserDoc.name u)
    | None => None
    end.

Definition newest_first_populated (a b : Populated) : Z :=
  (AttendanceDoc.timestamp (doc b) - AttendanceDoc.timestamp (doc a))%Z.

(** [Attendance.find(query).populate('userId', 'name').sort({ timestamp: -1 })] *)
Definition find_report (db : Db) (query : option string) : option (list Populated) :=
  if connected db then
    let selected :=
      match query with
      | Some userId =>
          filter (fun d => AttendanceDoc.userId d =? castObjectId userId) (Attendance db)
      | None => Attendance db
      end in
    Some (js_sort newest_first_populated (map (populate (User db)) selected))
  else None.

Definition report_query (db : Db) (query : option string) : MResponse :=
  match find_report db query with
  | Some report => mkMResponse 200 (MReport (List.length report) report)
  | None =>
      mkMResponse 500
        (MMessage [Lit "An internal server error occurred while fetching the report."])
  end.

(** [GET /api/v1/attendance/report]; [isValid] is the identifier check of
    the driver in use. *)
Definition report (isValid : string -> bool) (db : Db) (req : Request) : MResponse :=
  match query_userId req with
  | Some userId =>
      if userId =? "" then report_query db None
      else if negb (isValid userId) then
        mkMResponse 400 (MMessage [Lit "Invalid Student ID format."])
      else report_query db (Some userId)
  | None => report_query db None
  end.

(** [identifyUserFromFingerprint]; [None] is a rejected promise. *)
Definition identifyUserFromFingerprint (db : Db) (incomingTemplate : JValue)
  : option (option string) :=
  if negb (truthy incomingTemplate) || negb (isArray incomingTemplate)
     || length_lt incomingTemplate 50 then
    Some None
  else if connected db then
    match User db with
    | matchedUser :: _ => Some (Some (UserDoc._id matchedUser))
    | [] => Some None
    end
  else None.

End Mongo.

(* ------------------------------------------------------------------ *)
(** ** Vocabulary of the properties *)

Abbreviation ts := Attendance.timestamp (only parsing).

(** [l] is the event of history [h] that [lastRecord] returns, the head of
    the stable newest-first sort: it has the greatest timestamp, and among the
    events that share the greatest timestamp it is the one recorded FIRST.
    When the greatest timestamp is shared this is not the most recent event
    of the history; compare [most_recent_of]. *)
Definition first_of_newest (h : list Attendance.t) (l : Attendance.t) : Prop :=
  exists before after,
    h = before ++ l :: after
    /\ Forall (fun r => (ts r < ts l)%Z) before
    /\ Forall (fun r => (ts r <= ts l)%Z) after.

(** [l] is the most recent event of history [h]: it has the greatest
    timestamp, and among the events that share it the one recorded last. *)
Definition most_recent_of (h : list Attendance.t) (l : Attendance.t) : Prop :=
  exists before after,
    h = before ++ l :: after
    /\ Forall (fun r => (ts r <= ts l)%Z) before
    /\ Forall (fun r => (ts r < ts l)%Z) after.

(** [l] is the latest event of [h] by timestamp, ties broken by the greater
    event id. *)
Definition latest_by_id (h : list Attendance.t) (l : Attendance.t) : Prop :=
  In l h
  /\ Forall (fun r => (ts r < ts l)%Z
                      \/ (ts r = ts l /\ String.leb (Attendance.id r) (Attendance.id l) = true))
       h.

Definition opposite (t : EventType) : EventType :=
  match t with
  | IN => OUT
  | OUT => IN
  end.

(** A sequence of event types alternates, starting with [expected]. *)
Fixpoint alternates (expected : EventType) (l : list EventType) : bool :=
  match l with
  | [] => true
  | t :: rest =>
      EventType_eqb t expected && alternates (opposite expected) rest
  end.

Definition oldest_first (a b : Attendance.t) : Z :=
  (Attendance.timestamp a - Attendance.timestamp b)%Z.

(** The events of one identity, ordered by timestamp. *)
Definition by_timestamp (userId : string) (records : list Attendance.t) : list Attendance.t :=
  js_sort oldest_first (records_of userId records).

(** For each identity the events, ordered by timestamp, alternate starting
    with IN. *)
Definition alternation_invariant (st : State) : Prop :=
  forall userId,
    alternates IN (map Attendance.type (by_timestamp userId (attendanceRecords st))) = true.

(** The ledger holds its events in strictly increasing timestamp order. *)
Definition strictly_ordered (records : list Attendance.t) : Prop :=
  StronglySorted (fun a b => (ts a < ts b)%Z) records.

(** The events of each identity alternate in the order they were recorded. *)
Definition alternates_as_recorded (st : State) : Prop :=
  forall userId,
    alternates IN (map Attendance.type (records_of userId (attendanceRecords st))) = true.

(** Clock disciplines: what the clock may read when a request is handled. *)
Definition monotone_clock (st : State) (env : Env) : Prop :=
  Forall (fun r => (ts r <= now env)%Z) (attendanceRecords st).

Definition ticking_clock (st : State) (env : Env) : Prop :=
  Forall (fun r => (ts r < now env)%Z) (attendanceRecords st).

(** States reachable from the empty store by requests of any kind, under a
    clock discipline. *)
Inductive reachable (m : Modality) (cfg : Config) (clock : State -> Env -> Prop)
  : State -> Prop :=
| reach_init : reachable m cfg clock initial_state
| reach_step st env req :
    reachable m cfg clock st ->
    clock st env ->
    reachable m cfg clock (state (app m cfg env st req)).

(** The clock discipline holds at every step of a run. *)
Fixpoint clock_respected (clock : State -> Env -> Prop) (m : Modality) (cfg : Config)
    (reqs : list (Env * Request)) (st : State) : Prop :=
  match reqs with
  | [] => True
  | (env, req) :: rest =>
      clock st env /\ clock_respected clock m cfg rest (state (app m cfg env st req))
  end.



(** A matcher scores a probe against a stored template. *)
Definition Matcher : Type := list JValue -> list JValue -> Z.

(** An identification function honours a threshold for a matcher when every
    identity it returns scores at least the threshold on the probe. *)
Definition honours_threshold (score : Matcher) (threshold : Z)
    (identify : list User.t -> JValue -> option string * list LogLine) : Prop :=
  forall us probe userId u,
    fst (identify us (JArr probe)) = Some userId ->
    find_user us userId = Some u ->
    (threshold <= score probe (User.template u))%Z.

(** A sample matcher: the number of positions at which probe and stored
    template hold the same number. *)
Fixpoint agreement (probe stored : list JValue) : Z :=
  match probe, stored with
  | JNum x :: probe', JNum y :: stored' =>
      ((if (x =? y)%Z then 1 else 0) + agreement probe' stored')%Z
  | _ :: probe', _ :: stored' => agreement probe' stored'
  | _, _ => 0%Z
  end.

(** The probe lengths on which a stub goes on to pick a user. *)
Definition accepted_length (m : Modality) (n : nat) : bool :=
  match m with
  | Facial => Nat.ltb 100 n
  | Fingerprint => Nat.leb 50 n
  end.






Definition stored (st : State) (t : list JValue) : Prop :=
  exists u, In u (users st) /\ User.template u = t.



(** A user, and a store, with the templates blanked. *)
Definition forget_template (u : User.t) : User.t :=
  User.mk (User.id u) (User.name u) [] (User.createdAt u).

Definition forget_state (st : State) : State :=
  mkState (map forget_template (users st)) (attendanceRecords st).

(** Two stores that differ at most in the stored templates. *)
Definition same_but_templates (s1 s2 : State) : Prop :=
  forget_state s1 = forget_state s2.

(** Two properties that are the same value, or two arrays of one length. *)
Definition same_shape (a b : option JValue) : Prop :=
  match a, b with
  | Some (JArr x), Some (JArr y) => List.length x = List.length y
  | _, _ => a = b
  end.

(** Two requests that differ at most in the entries of the templates they
    carry. *)
Definition same_but_template_entries (m : Modality) (r1 r2 : Request) : Prop :=
  method r1 = method r2
  /\ path r1 = path r2
  /\ x_api_key r1 = x_api_key r2
  /\ query_userId r1 = query_userId r2
  /\ ip r1 = ip r2
  /\ prop "name" (body r1) = prop "name" (body r2)
  /\ same_shape (prop (template_field m) (body r1)) (prop (template_field m) (body r2))
  /\ same_shape (prop (probe_field m) (body r1)) (prop (probe_field m) (body r2)).

(* ------------------------------------------------------------------ *)
(** ** Sample data *)

Definition cfg0 : Config := mkConfig "s3cr3t".

Definition numbers (n : nat) (x : Z) : list JValue := repeat (JNum x) n.

Definition post (sub : list string) (b : list (string * JValue)) : Request :=
  mkRequest POST ("api" :: "v1" :: sub) (Some "s3cr3t") None b "10.0.0.7".

Definition enroll_req (m : Modality) (name : JValue) (t : list JValue) : Request :=
  post ["users"; "enroll"] [("name", name); (template_field m, JArr t)].

Definition scan_req (m : Modality) (t : list JValue) : Request :=
  post ["attendance"; "check_in_out"] [(probe_field m, JArr t)].

Definition report_req (key : option string) (userId : option string) : Request :=
  mkRequest GET ["api"; "v1"; "attendance"; "report"] key userId [] "10.0.0.7".

(** A scan that carries a guessed key. *)
Definition guessed_key_scan : Request :=
  mkRequest POST ["api"; "v1"; "attendance"; "check_in_out"] (Some "guess") None
    [("incomingVector", JArr (numbers 120 7))] "10.0.0.8".

Definition health_req : Request :=
  mkRequest GET ["health"] None None [] "10.0.0.9".

Definition env_at (t : Z) (b : byte) : Env := mkEnv t (x00, x00, x00, b).

(** A database with nobody enrolled, and a well-formed identifier. *)
Definition empty_db : Mongo.Db := Mongo.mkDb true [] [].

Definition some_object_id : string := "507f1f77bcf86cd799439011".

(** Alice is enrolled at time 1000 with a template of 120 numbers. *)
Definition alice_enrolled (m : Modality) : State :=
  run m cfg0 [(env_at 1000 xa1, enroll_req m (JStr "Alice") (numbers 120 7))] initial_state.

(** Three scans handled within the same millisecond. *)
Definition same_ms_scans (m : Modality) : list (Env * Request) :=
  [(env_at 1000 xa1, enroll_req m (JStr "Alice") (numbers 120 7));
   (env_at 2000 x01, scan_req m (numbers 120 7));
   (env_at 2000 x02, scan_req m (numbers 120 7));
   (env_at 2000 x03, scan_req m (numbers 120 7))].

(** An enrollment and two scans, both scans within the same millisecond, and
    the two events they leave. *)
Definition tied_scans (m : Modality) : list (Env * Request) :=
  [(env_at 1000 xa1, enroll_req m (JStr "Alice") (numbers 120 7));
   (env_at 2000 x01, scan_req m (numbers 120 7));
   (env_at 2000 x02, scan_req m (numbers 120 7))].

Definition tied_IN : Attendance.t :=
  Attendance.mk "00000001" "000000a1" 2000 IN "10.0.0.7".

Definition tied_OUT : Attendance.t :=
  Attendance.mk "00000002" "000000a1" 2000 OUT "10.0.0.7".


(** Two scans a millisecond apart. *)
Definition spaced_scans (m : Modality) : list (Env * Request) :=
  [(env_at 1000 xa1, enroll_req m (JStr "Alice") (numbers 120 7));
   (env_at 2000 x01, scan_req m (numbers 120 7));
   (env_at 2001 x02, scan_req m (numbers 120 7))].

(* ------------------------------------------------------------------ *)
(** ** Runs, start-up and further vocabulary *)

(** The responses of a run, in the order of the requests. *)
Fixpoint run_responses (m : Modality) (cfg : Config) (reqs : list (Env * Request))
    (st : State) : list Response :=
  match reqs with
  | [] => []
  | (env, req) :: rest =>
      response (app m cfg env st req)
      :: run_responses m cfg rest (state (app m cfg env st req))
  end.

(** The body of a recorded scan. *)
Definition is_record (b : Body) : bool :=
  match b with
  | BRecord _ _ _ => true
  | _ => false
  end.

(** The number of responses that report an enrollment (201), and the number
    that report a recorded scan. *)
Definition enrolled_count (rs : list Response) : nat :=
  List.length (filter (fun r => Nat.eqb (status r) 201) rs).

Definition recorded_count (rs : list Response) : nat :=
  List.length (filter (fun r => is_record (json r)) rs).

(** Every event of the ledger carries the id of the first enrolled user. *)
Definition credited_to_first (st : State) : Prop :=
  forall r, In r (attendanceRecords st) ->
    exists u0, hd_error (users st) = Some u0 /\ Attendance.userId r = User.id u0.

(** Every id in the store is made of eight characters. *)
Definition ids_well_formed (st : State) : Prop :=
  Forall (fun u => String.length (User.id u) = 8) (users st)
  /\ Forall (fun r => String.length (Attendance.id r) = 8) (attendanceRecords st).

(** [Buffer.toString('hex')] on a buffer of any length. *)
Fixpoint hex_of_bytes (bs : list byte) : string :=
  match bs with
  | [] => EmptyString
  | b :: rest => hex_of_byte b ++ hex_of_bytes rest
  end.

(** The key of the in-memory servers:
    [process.env.ATTENDANCE_API_KEY || crypto.randomBytes(32).toString('hex')].
    [ATTENDANCE_API_KEY] is the environment variable, [None] when it is not
    set; [random32] is what [crypto.randomBytes(32)] returns. *)
Definition startup_key (ATTENDANCE_API_KEY : option string) (random32 : list byte) : string :=
  match ATTENDANCE_API_KEY with
  | Some key => if key =? "" then hex_of_bytes random32 else key
  | None => hex_of_bytes random32
  end.

(** The key of the database-backed server: the environment variable, and
    [None] when the process exits at start-up because it is unset or empty. *)
Definition required_startup_key (ATTENDANCE_API_KEY : option string) : option string :=
  match ATTENDANCE_API_KEY with
  | Some key => if key =? "" then None else Some key
  | None => None
  end.

(** A request is an authorised call of a route of the router. *)
Definition calls (cfg : Config) (mth : Method) (sub : list string) (req : Request) : Prop :=
  method req = mth /\ path req = "api" :: "v1" :: sub /\ apiAuth cfg req = true.

(* ------------------------------------------------------------------ *)
(** ** The database-backed variant: enrollment and scan

    A handler of this variant awaits database calls one after the other
    inside a [try]; a call that rejects sends the handler to its [catch],
    which answers 500.  The collections are those of [Mongo.Db], in insertion
    order.  One run of a handler is modelled against collections that nobody
    else writes to while it runs. *)

Module MongoApi.

(** What one handler run reads from outside the collections: the clock
    ([Date.now], the default of both timestamps), the identifier the driver
    gives the document it creates, and which of the awaited database calls of
    this run reject, numbered from 0 in the order the handler makes them. *)
Record MEnv : Type := mkMEnv {
  mnow : Z;
  newObjectId : string;
  rejects : nat -> bool
}.

Inductive Body : Type :=
| Message (message : Text)
    (* { message } *)
| Created (message : Text) (id : string) (name : string) (createdAt : Z)
    (* { message, user: { id, name, createdAt } } *)
| Recorded (message : Text) (timestamp : Z) (type : EventType).
    (* { message, record: { timestamp, type } } *)

Record Outcome : Type := mkOutcome {
  status : nat;
  json : Body;
  db : Mongo.Db
}.

(** What the source leaves to the driver: [latest userId docs] is the
    document that [Attendance.findOne({ userId }).sort({ timestamp: -1 })]
    yields on the collection [docs], and [enroll_named] is what the
    enrollment does, after its own checks, with a truthy name that is not a
    string (the driver casts it, reads it as a query, or throws). *)
Record Driver : Type := mkDriver {
  latest : string -> list Mongo.AttendanceDoc.t -> option Mongo.AttendanceDoc.t;
  enroll_named : JValue -> list JValue -> MEnv -> Mongo.Db -> Outcome
}.

(** The [n]-th awaited call of the run goes through. *)
Definition ok (d : Mongo.Db) (env : MEnv) (n : nat) : bool :=
  Mongo.connected d && negb (rejects env n).

Definition enroll_missing : Text :=
  [Lit "Missing required fields: name and fingerprintTemplate must be provided."].

Definition enroll_failed : Text :=
  [Lit "An internal server error occurred during enrollment."].

Definition scan_failed : Text :=
  [Lit "An internal server error occurred while recording attendance."].

(** [User.findOne({ name })] for a string. *)
Definition findOne_name (us : list Mongo.UserDoc.t) (name : string) : option Mongo.UserDoc.t :=
  find (fun u => Mongo.UserDoc.name u =? name) us.

(** [User.findById(userId)] *)
Definition findById (us : list Mongo.UserDoc.t) (userId : string) : option Mongo.UserDoc.t :=
  find (fun u => Mongo.UserDoc._id u =? userId) us.

(** [POST /api/v1/users/enroll].  Call 0 is [User.findOne], call 1 is
    [newUser.save()]; a save that rejects has stored nothing. *)
Definition enroll (drv : Driver) (env : MEnv) (d : Mongo.Db) (req : Request) : Outcome :=
  match prop "name" (body req), prop "fingerprintTemplate" (body req) with
  | Some name, Some (JArr (x :: xs)) =>
      if truthy name then
        match name with
        | JStr s =>
            if ok d env 0 then
              match findOne_name (Mongo.User d) s with
              | Some existingUser =>
                  mkOutcome 409
                    (Message [Lit "A student named '"; Interp name;
                              Lit "' is already enrolled."])
                    d
              | None =>
                  if ok d env 1 then
                    let newUser := Mongo.UserDoc.mk (newObjectId env) s (x :: xs) (mnow env) in
                    mkOutcome 201
                      (Created
                         [Lit "Student successfully enrolled and fingerprint data stored."]
                         (Mongo.UserDoc._id newUser) (Mongo.UserDoc.name newUser)
                         (Mongo.UserDoc.createdAt newUser))
                      (Mongo.mkDb (Mongo.connected d) (Mongo.User d ++ [newUser])
                         (Mongo.Attendance d))
                  else mkOutcome 500 (Message enroll_failed) d
              end
            else mkOutcome 500 (Message enroll_failed) d
        | _ => enroll_named drv name (x :: xs) env d
        end
      else mkOutcome 400 (Message enroll_missing) d
  | _, _ => mkOutcome 400 (Message enroll_missing) d
  end.

(** [(!lastRecord || lastRecord.type === 'OUT') ? 'IN' : 'OUT'] *)
Definition eventType (last : option Mongo.AttendanceDoc.t) : EventType :=
  match last with
  | None => IN
  | Some r =>
      match Mongo.AttendanceDoc.type r with
      | OUT => IN
      | IN => OUT
      end
  end.

(** [student ? student.name : 'Unknown Student'] *)
Definition studentName (us : list Mongo.UserDoc.t) (userId : string) : string :=
  match findById us userId with
  | Some student => Mongo.UserDoc.name student
  | None => "Unknown Student"
  end.

Definition recorded (name : string) (ty : EventType) : Text :=
  [Lit name; Lit ", your attendance has been recorded successfully. You are Clocked ";
   Lit (EventType_name ty); Lit "."].

(** [POST /api/v1/attendance/check_in_out].  Call 0 is the [User.find] of
    [identifyUserFromFingerprint] (not made for a probe the stub refuses),
    call 1 is [Attendance.findOne], call 2 is [newRecord.save()], call 3 is
    [User.findById]. *)
Definition check_in_out (drv : Driver) (env : MEnv) (d : Mongo.Db) (req : Request) : Outcome :=
  match prop "incomingTemplate" (body req) with
  | Some (JArr (x :: xs)) =>
      match Mongo.identifyUserFromFingerprint
              (Mongo.mkDb (ok d env 0) (Mongo.User d) (Mongo.Attendance d))
              (JArr (x :: xs)) with
      | None => mkOutcome 500 (Message scan_failed) d
      | Some None =>
          mkOutcome 404 (Message [Lit "Fingerprint not recognized. Please try again."]) d
      | Some (Some userId) =>
          if ok d env 1 then
            let ty := eventType (latest drv userId (Mongo.Attendance d)) in
            if ok d env 2 then
              let newRecord :=
                Mongo.AttendanceDoc.mk (newObjectId env) userId (mnow env) ty (ip req) in
              let saved :=
                Mongo.mkDb (Mongo.connected d) (Mongo.User d)
                  (Mongo.Attendance d ++ [newRecord]) in
              if ok d env 3 then
                mkOutcome 200
                  (Recorded (recorded (studentName (Mongo.User d) userId) ty)
                     (Mongo.AttendanceDoc.timestamp newRecord)
                     (Mongo.AttendanceDoc.type newRecord))
                  saved
              else mkOutcome 500 (Message scan_failed) saved
            else mkOutcome 500 (Message scan_failed) d
          else mkOutcome 500 (Message scan_failed) d
      end
  | _ => mkOutcome 400 (Message [Lit "Missing required field: incomingTemplate."]) d
  end.

(** A driver for the sample runs: the latest document is the head of the
    stable newest-first arrangement, and a name that is not a string makes the
    save throw. *)
Definition sample_driver : Driver :=
  mkDriver
    (fun userId docs =>
       hd_error
         (js_sort
            (fun a b =>
               (Mongo.AttendanceDoc.timestamp b - Mongo.AttendanceDoc.timestamp a)%Z)
            (filter (fun r => Mongo.AttendanceDoc.userId r =? userId) docs)))
    (fun _ _ _ d => mkOutcome 500 (Message enroll_failed) d).

Definition never_rejects : nat -> bool := fun _ => false.

(** Only the fourth call of the run, the name lookup, rejects. *)
Definition name_lookup_rejects : nat -> bool := fun n => Nat.eqb n 3.

Definition all_reject : nat -> bool := fun _ => true.

Definition carol_db : Mongo.Db :=
  Mongo.mkDb true
    [Mongo.UserDoc.mk "507f1f77bcf86cd799439011" "Carol" (repeat (JNum 7) 60) 1000] [].

Definition mongo_enroll_req (name : JValue) (t : list JValue) : Request :=
  mkRequest POST ["api"; "v1"; "users"; "enroll"] (Some "s3cr3t") None
    [("name", name); ("fingerprintTemplate", JArr t)] "10.0.0.7".

Definition mongo_scan_req (t : list JValue) : Request :=
  mkRequest POST ["api"; "v1"; "attendance"; "check_in_out"] (Some "s3cr3t") None
    [("incomingTemplate", JArr t)] "10.0.0.7".

End MongoApi.

(* ================================================================== *)
(** * Properties *)

(* ------------------------------------------------------------------ *)
(** ** The stable sort *)

Section SortFacts.
Context {A : Type} (cmp : A -> A -> Z).

Lemma sort_insert_perm (x : A) (l : list A) :
  Permutation (sort_insert cmp x l) (x :: l).
Proof.
  induction l as [|y l IH]; simpl.
  - apply Permutation_refl.
  - destruct (cmp x y <=? 0)%Z.
    + apply Permutation_refl.
    + eapply perm_trans; [apply perm_skip, IH | apply perm_swap].
Qed.

Lemma js_sort_perm (l : list A) : Permutation (js_sort cmp l) l.
Proof.
  induction l as [|x l IH]; simpl.
  - constructor.
  - eapply perm_trans; [apply sort_insert_perm | apply perm_skip, IH].
Qed.

Lemma js_sort_length (l : list A) : List.length (js_sort cmp l) = List.length l.
Proof. apply Permutation_length, js_sort_perm. Qed.

(** The comparator orders by a key, greatest key first. *)
Variable key : A -> Z.
Hypothesis cmp_key : forall a b, cmp a b = (key b - key a)%Z.





Lemma js_sort_nil (l : list A) : js_sort cmp l = [] -> l = [].
Proof.
  intros H. apply Permutation_nil.
  rewrite <- H. apply js_sort_perm.
Qed.

(** The head of the sorted array has the greatest key, and is the first
    element of the input among those of greatest key. *)
Lemma js_sort_head (l : list A) (x : A) :
  hd_error (js_sort cmp l) = Some x ->
  exists before after,
    l = before ++ x :: after
    /\ Forall (fun r => (key r < key x)%Z) before
    /\ Forall (fun r => (key r <= key x)%Z) after.
Proof.
  revert x. induction l as [|a l IH]; simpl; intros x Hx; [discriminate|].
  destruct (js_sort cmp l) as [|y s] eqn:Es; simpl in Hx.
  - injection Hx as <-. apply js_sort_nil in Es. subst l.
    exists [], []. repeat split; constructor.
  - rewrite cmp_key in Hx.
    destruct (IH y eq_refl) as (before & after & -> & Hb & Ha).
    destruct (Z.leb_spec (key y - key a) 0); simpl in Hx; injection Hx as <-.
    + exists [], (before ++ y :: after). repeat split; [constructor|].
      apply Forall_app. split.
      * eapply Forall_impl; [|exact Hb]. simpl; intros; lia.
      * constructor; [lia|].
        eapply Forall_impl; [|exact Ha]. simpl; intros; lia.
    + exists (a :: before), after. repeat split; [|assumption].
      constructor; [lia | assumption].
Qed.

(** An array already in order is left as it is. *)
Lemma js_sort_sorted_id (l : list A) :
  StronglySorted (fun a b => (key b <= key a)%Z) l -> js_sort cmp l = l.
Proof.
  induction l as [|x l IH]; simpl; intros Hs; [reflexivity|].
  inversion Hs as [|? ? Hl Hx]; subst.
  rewrite (IH Hl).
  destruct l as [|y l]; simpl; [reflexivity|].
  rewrite cmp_key. inversion Hx; subst.
  destruct (Z.leb_spec (key y - key x) 0); [reflexivity | lia].
Qed.
End SortFacts.

(* ------------------------------------------------------------------ *)
(** ** Which record [lastRecord] consults *)

Lemma first_of_newest_unique (h : list Attendance.t) (l1 l2 : Attendance.t) :
  first_of_newest h l1 -> first_of_newest h l2 -> l1 = l2.
Proof.
  intros (b1 & a1 & E1 & Hb1 & Ha1) (b2 & a2 & E2 & Hb2 & Ha2).
  subst h. revert b2 E2 Hb2.
  induction b1 as [|x b1 IH]; intros [|y b2] E2 Hb2; simpl in E2.
  - now injection E2.
  - injection E2 as -> ->.
    inversion Hb2; subst.
    rewrite Forall_app in Ha1. destruct Ha1 as [_ Ha1].
    inversion Ha1; subst. lia.
  - injection E2 as -> <-.
    inversion Hb1; subst.
    rewrite Forall_app in Ha2. destruct Ha2 as [_ Ha2].
    inversion Ha2; subst. lia.
  - injection E2 as -> E2.
    inversion Hb1; subst. inversion Hb2; subst.
    eapply IH; eassumption.
Qed.

Lemma first_of_newest_nonempty (h : list Attendance.t) (l : Attendance.t) :
  first_of_newest h l -> h <> [].
Proof.
  intros (before & after & -> & _) H.
  destruct before; discriminate.
Qed.

Lemma lastRecord_first_of_newest (userId : string) (records : list Attendance.t) (l : Attendance.t) :
  lastRecord userId records = Some l <-> first_of_newest (records_of userId records) l.
Proof.
  unfold lastRecord. split.
  - intros H. apply (js_sort_head newest_first Attendance.timestamp) in H; auto.
  - intros H.
    destruct (hd_error (js_sort newest_first (records_of userId records))) as [l'|] eqn:E.
    + f_equal. apply (first_of_newest_unique (records_of userId records)); [|assumption].
      apply (js_sort_head newest_first Attendance.timestamp) in E; auto.
    + exfalso. apply (first_of_newest_nonempty _ _ H).
      apply (js_sort_nil newest_first).
      destruct (js_sort newest_first (records_of userId records)); [reflexivity | discriminate].
Qed.

Lemma lastRecord_none (userId : string) (records : list Attendance.t) :
  lastRecord userId records = None <-> records_of userId records = [].
Proof.
  unfold lastRecord. split.
  - intros H. apply (js_sort_nil newest_first).
    destruct (js_sort newest_first (records_of userId records)); [reflexivity | discriminate].
  - intros ->. reflexivity.
Qed.

(* ------------------------------------------------------------------ *)
(** ** Routing *)

Lemma path_eqb_eq (p q : list string) : path_eqb p q = true <-> p = q.
Proof.
  revert q. induction p as [|a p IH]; intros [|b q]; simpl; split; try easy.
  - rewrite andb_true_iff, String.eqb_eq, IH. now intros [-> ->].
  - intros H. injection H as -> ->.
    rewrite andb_true_iff, String.eqb_eq, IH. auto.
Qed.

Lemma path_eqb_refl (p : list string) : path_eqb p p = true.
Proof. now apply path_eqb_eq. Qed.

Lemma mounted_under_app (mount sub : list string) :
  mounted_under mount (mount ++ sub) = Some sub.
Proof.
  induction mount as [|a mount IH]; simpl; [reflexivity|].
  now rewrite String.eqb_refl.
Qed.

Lemma mounted_under_inv (mount p sub : list string) :
  mounted_under mount p = Some sub -> p = mount ++ sub.
Proof.
  revert p. induction mount as [|a mount IH]; intros p; simpl.
  - now intros [= ->].
  - destruct p as [|b p]; [discriminate|].
    destruct (String.eqb_spec a b); [|discriminate].
    intros H. apply IH in H. now subst.
Qed.

(** What the scan route does, case by case. *)
Lemma check_in_out_cases (m : Modality) (env : Env) (st : State) (req : Request) :
  let o := check_in_out m env st req in
  (response o = mkResponse 400 (BMessage (probe_missing_text m))
   /\ state o = st /\ console o = []
   /\ forall x xs, prop (probe_field m) (body req) <> Some (JArr (x :: xs)))
  \/ (exists x xs lines,
        prop (probe_field m) (body req) = Some (JArr (x :: xs))
        /\ (identifyUser m (users st) (JArr (x :: xs)) = (None, lines)
            \/ identifyUser m (users st) (JArr (x :: xs)) = (Some "", lines))
        /\ response o = mkResponse 404 (BMessage (not_recognized_text m))
        /\ state o = st /\ console o = lines ++ [AttendanceFailed])
  \/ (exists x xs lines userId,
        prop (probe_field m) (body req) = Some (JArr (x :: xs))
        /\ identifyUser m (users st) (JArr (x :: xs)) = (Some userId, lines)
        /\ userId <> ""
        /\ let ty := eventType (lastRecord userId (attendanceRecords st)) in
           let newRecord :=
             Attendance.mk (toHex (randomBytes4 env)) userId (now env) ty (ip req) in
           let userName := display_name m (users st) userId in
           response o = mkResponse 200 (BRecord (recorded_text userName ty) (now env) ty)
           /\ state o = mkState (users st) (attendanceRecords st ++ [newRecord])
           /\ console o = lines ++ [AttendanceRecorded ty userName userId]).
Proof.
  unfold check_in_out.
  destruct (prop (probe_field m) (body req)) as [[| | | |[|x xs]|]|] eqn:E; simpl;
    try (left; repeat split; congruence).
  destruct (identifyUser m (users st) (JArr (x :: xs))) as [[userId|] lines] eqn:Ei.
  - destruct (String.eqb_spec userId "") as [->|Hne].
    + right; left. exists x, xs, lines. simpl. auto 6.
    + right; right. exists x, xs, lines, userId. simpl. auto 8.
  - right; left. exists x, xs, lines. simpl. auto 6.
Qed.

Lemma app_scan_route (m : Modality) (cfg : Config) (env : Env) (st : State) (req : Request) :
  method req = POST ->
  path req = ["api"; "v1"; "attendance"; "check_in_out"] ->
  app m cfg env st req
  = if apiAuth cfg req then
      prepend [AuthValidated ["attendance"; "check_in_out"]] (check_in_out m env st req)
    else unauthorized st req.
Proof.
  intros Hm Hp. unfold app, router, routes, route_matches. rewrite Hp, Hm. reflexivity.
Qed.

Lemma app_enroll_route (m : Modality) (cfg : Config) (env : Env) (st : State) (req : Request) :
  method req = POST ->
  path req = ["api"; "v1"; "users"; "enroll"] ->
  app m cfg env st req
  = if apiAuth cfg req then
      prepend [AuthValidated ["users"; "enroll"]] (enroll m env st req)
    else unauthorized st req.
Proof.
  intros Hm Hp. unfold app, router, routes, route_matches. rewrite Hp, Hm. reflexivity.
Qed.

Lemma app_report_route (m : Modality) (cfg : Config) (env : Env) (st : State) (req : Request) :
  method req = GET ->
  path req = ["api"; "v1"; "attendance"; "report"] ->
  app m cfg env st req
  = if apiAuth cfg req then
      prepend [AuthValidated ["attendance"; "report"]] (report m st req)
    else unauthorized st req.
Proof.
  intros Hm Hp. unfold app, router, routes, route_matches. rewrite Hp, Hm. reflexivity.
Qed.

(* ------------------------------------------------------------------ *)
(** ** How a request changes the store *)

Lemma enroll_state (m : Modality) (env : Env) (st : State) (req : Request) :
  state (enroll m env st req) = st
  \/ exists u, state (enroll m env st req) = mkState (users st ++ [u]) (attendanceRecords st).
Proof.
  unfold enroll.
  destruct (prop "name" (body req)) as [name|]; [|now left].
  destruct (prop (template_field m) (body req)) as [[| | | |[|x xs]|]|]; try now left.
  destruct (truthy name); [|now left].
  right. eexists. reflexivity.
Qed.

Lemma report_state (m : Modality) (st : State) (req : Request) :
  state (report m st req) = st.
Proof.
  unfold report, report_ok.
  destruct (query_userId req) as [userId|]; [|reflexivity].
  destruct (userId =? ""); [reflexivity|].
  destruct (existsb _ _); reflexivity.
Qed.

Lemma check_in_out_state (m : Modality) (env : Env) (st : State) (req : Request) :
  state (check_in_out m env st req) = st
  \/ exists userId,
      state (check_in_out m env st req)
      = mkState (users st)
          (attendanceRecords st
           ++ [Attendance.mk (toHex (randomBytes4 env)) userId (now env)
                 (eventType (lastRecord userId (attendanceRecords st))) (ip req)]).
Proof.
  destruct (check_in_out_cases m env st req)
    as [(_ & Hs & _) | [(x & xs & lines & _ & _ & _ & Hs & _)
                       | (x & xs & lines & userId & _ & _ & _ & _ & Hs & _)]];
    [now left | now left | right; now exists userId].
Qed.

Lemma routes_state (m : Modality) (env : Env) (st : State) (req : Request) (sub : list string) :
  state (routes m env st req sub) = st
  \/ (exists u, state (routes m env st req sub) = mkState (users st ++ [u]) (attendanceRecords st))
  \/ (exists userId,
        state (routes m env st req sub)
        = mkState (users st)
            (attendanceRecords st
             ++ [Attendance.mk (toHex (randomBytes4 env)) userId (now env)
                   (eventType (lastRecord userId (attendanceRecords st))) (ip req)])).
Proof.
  unfold routes.
  destruct (route_matches POST ["users"; "enroll"] req sub).
  { destruct (enroll_state m env st req); auto. }
  destruct (route_matches POST ["attendance"; "check_in_out"] req sub).
  { destruct (check_in_out_state m env st req); auto. }
  destruct (route_matches GET ["attendance"; "report"] req sub).
  { left. apply report_state. }
  now left.
Qed.

Lemma app_state_cases (m : Modality) (cfg : Config) (env : Env) (st : State) (req : Request) :
  state (app m cfg env st req) = st
  \/ (exists u, state (app m cfg env st req) = mkState (users st ++ [u]) (attendanceRecords st))
  \/ (exists userId,
        state (app m cfg env st req)
        = mkState (users st)
            (attendanceRecords st
             ++ [Attendance.mk (toHex (randomBytes4 env)) userId (now env)
                   (eventType (lastRecord userId (attendanceRecords st))) (ip req)])).
Proof.
  unfold app.
  destruct (mounted_under ["api"; "v1"] (path req)) as [sub|].
  - unfold router. destruct (apiAuth cfg req); [|now left].
    apply routes_state.
  - destruct (route_matches GET ["health"] req (path req)); now left.
Qed.

(* ------------------------------------------------------------------ *)
(** ** Alternation *)

Lemma EventType_eq_dec (a b : EventType) : {a = b} + {a <> b}.
Proof. decide equality. Defined.

Lemma EventType_eqb_eq (a b : EventType) : EventType_eqb a b = true <-> a = b.
Proof. destruct a, b; simpl; split; congruence. Qed.

Lemma alternates_snoc_opposite (l : list EventType) (x e : EventType) :
  alternates e (l ++ [x]) = true ->
  alternates e ((l ++ [x]) ++ [opposite x]) = true.
Proof.
  revert e. induction l as [|y l IH]; simpl; intros e H.
  - apply andb_true_iff in H. destruct H as [H _].
    apply EventType_eqb_eq in H. subst x. destruct e; reflexivity.
  - apply andb_true_iff in H. destruct H as [Hy H].
    rewrite Hy. simpl. apply IH, H.
Qed.

Lemma StronglySorted_weaken {A : Type} (R S : A -> A -> Prop) (l : list A) :
  (forall a b, R a b -> S a b) -> StronglySorted R l -> StronglySorted S l.
Proof.
  intros HRS. induction 1 as [|a l Hl IH Ha]; constructor; [assumption|].
  eapply Forall_impl; [|exact Ha]. auto.
Qed.

Lemma StronglySorted_filter {A : Type} (R : A -> A -> Prop) (f : A -> bool) (l : list A) :
  StronglySorted R l -> StronglySorted R (filter f l).
Proof.
  induction 1 as [|a l Hl IH Ha]; simpl; [constructor|].
  destruct (f a); [|assumption].
  constructor; [assumption|].
  apply Forall_forall. intros x Hx. apply filter_In in Hx.
  rewrite Forall_forall in Ha. apply Ha, Hx.
Qed.

Lemma StronglySorted_snoc {A : Type} (R : A -> A -> Prop) (l : list A) (x : A) :
  StronglySorted R l -> Forall (fun a => R a x) l -> StronglySorted R (l ++ [x]).
Proof.
  induction 1 as [|a l Hl IH Ha]; simpl; intros Hx.
  - repeat constructor.
  - inversion Hx; subst. constructor; [auto|].
    apply Forall_app. split; [assumption | repeat constructor; assumption].
Qed.

Lemma StronglySorted_last {A : Type} (R : A -> A -> Prop) (l : list A) (x : A) :
  StronglySorted R (l ++ [x]) -> Forall (fun a => R a x) l.
Proof.
  induction l as [|a l IH]; simpl; intros H; [constructor|].
  inversion H as [|? ? Hl Ha]; subst.
  constructor; [|auto].
  rewrite Forall_app in Ha. destruct Ha as [_ Ha]. now inversion Ha.
Qed.

Lemma records_of_snoc (userId : string) (records : list Attendance.t) (r : Attendance.t) :
  records_of userId (records ++ [r])
  = records_of userId records
    ++ (if Attendance.userId r =? userId then [r] else []).
Proof.
  unfold records_of. rewrite filter_app. simpl.
  destruct (Attendance.userId r =? userId); reflexivity.
Qed.

(** With strictly increasing timestamps the record consulted is the last one
    recorded for the identity. *)
Lemma lastRecord_strictly_ordered (userId : string) (records : list Attendance.t) :
  strictly_ordered records ->
  lastRecord userId records
  = hd_error (rev (records_of userId records)).
Proof.
  intros Hs.
  assert (Hf : strictly_ordered (records_of userId records))
    by (apply StronglySorted_filter, Hs).
  destruct (rev (records_of userId records)) as [|x r] eqn:E; simpl.
  - apply lastRecord_none.
    rewrite <- (rev_involutive (records_of userId records)), E. reflexivity.
  - apply lastRecord_first_of_newest.
    assert (E' : records_of userId records = rev r ++ [x])
      by (rewrite <- (rev_involutive (records_of userId records)), E; reflexivity).
    rewrite E' in *.
    exists (rev r), []. repeat split; [|constructor].
    exact (StronglySorted_last _ _ _ Hf).
Qed.

Lemma step_keeps_order (m : Modality) (cfg : Config) (env : Env) (st : State) (req : Request) :
  ticking_clock st env ->
  strictly_ordered (attendanceRecords st) ->
  strictly_ordered (attendanceRecords (state (app m cfg env st req))).
Proof.
  intros Hc Hs.
  destruct (app_state_cases m cfg env st req) as [-> | [(u & ->) | (userId & ->)]];
    simpl; try assumption.
  apply StronglySorted_snoc; [assumption|].
  eapply Forall_impl; [|exact Hc]. simpl. auto.
Qed.

Lemma step_keeps_alternation (m : Modality) (cfg : Config) (env : Env) (st : State)
    (req : Request) :
  strictly_ordered (attendanceRecords st) ->
  alternates_as_recorded st ->
  alternates_as_recorded (state (app m cfg env st req)).
Proof.
  intros Hs Ha.
  destruct (app_state_cases m cfg env st req) as [-> | [(u & ->) | (userId & ->)]];
    try exact Ha.
  intros uid. simpl. rewrite records_of_snoc. simpl.
  destruct (String.eqb_spec userId uid) as [->|Hne]; [|rewrite app_nil_r; apply Ha].
  rewrite map_app. simpl.
  rewrite (lastRecord_strictly_ordered uid _ Hs).
  specialize (Ha uid).
  destruct (rev (records_of uid (attendanceRecords st))) as [|x r] eqn:E; simpl.
  - rewrite <- (rev_involutive (records_of uid (attendanceRecords st))), E. reflexivity.
  - assert (E' : records_of uid (attendanceRecords st) = rev r ++ [x])
      by (rewrite <- (rev_involutive (records_of uid (attendanceRecords st))), E; reflexivity).
    rewrite E' in *. rewrite map_app in *. simpl in *.
    replace (match Attendance.type x with IN => OUT | OUT => IN end)
      with (opposite (Attendance.type x)) by (destruct (Attendance.type x); reflexivity).
    apply alternates_snoc_opposite, Ha.
Qed.

Lemma by_timestamp_ordered (userId : string) (records : list Attendance.t) :
  strictly_ordered records ->
  by_timestamp userId records = records_of userId records.
Proof.
  intros Hs. unfold by_timestamp.
  apply (js_sort_sorted_id oldest_first (fun a => (- Attendance.timestamp a)%Z)).
  - intros a b. unfold oldest_first. lia.
  - apply StronglySorted_filter.
    eapply StronglySorted_weaken; [|exact Hs]. simpl. intros; lia.
Qed.

(** X2. When every request is handled at a clock reading later than all recorded
    events, the events of each identity, ordered by timestamp, alternate
    starting with IN. *)
Theorem alternation_under_ticking_clock (m : Modality) (cfg : Config) (st : State) :
  reachable m cfg ticking_clock st -> alternation_invariant st.
Proof.
  intros Hr.
  assert (H : strictly_ordered (attendanceRecords st) /\ alternates_as_recorded st).
  { induction Hr as [|st env req Hr [Hs Ha] Hc].
    - split; [constructor | intros uid; reflexivity].
    - split; [now apply step_keeps_order | now apply step_keeps_alternation]. }
  destruct H as [Hs Ha]. intros uid.
  rewrite (by_timestamp_ordered uid _ Hs). apply Ha.
Qed.

Lemma run_reachable (m : Modality) (cfg : Config) (clock : State -> Env -> Prop)
    (reqs : list (Env * Request)) (st : State) :
  reachable m cfg clock st ->
  clock_respected clock m cfg reqs st ->
  reachable m cfg clock (run m cfg reqs st).
Proof.
  revert st. induction reqs as [|[env req] rest IH]; simpl; intros st Hr Hc.
  - exact Hr.
  - destruct Hc as [Hc Hrest]. apply IH; [|exact Hrest].
    now apply reach_step.
Qed.

Lemma same_ms_scans_monotone (m : Modality) :
  clock_respected monotone_clock m cfg0 (same_ms_scans m) initial_state.
Proof.
  destruct m; cbn; unfold monotone_clock; cbn;
    repeat split; repeat constructor; cbn; lia.
Qed.

(** C2. Three scans of one identity handled within the same millisecond, a
    run the clock allows without ever going backwards, leave the ledger with
    the types IN, OUT, OUT under one timestamp: ordered by timestamp, the
    events of that identity do not alternate. *)
Theorem same_millisecond_scans_repeat_OUT (m : Modality) :
  reachable m cfg0 monotone_clock (run m cfg0 (same_ms_scans m) initial_state)
  /\ map (fun r => (Attendance.userId r, Attendance.timestamp r, Attendance.type r))
       (attendanceRecords (run m cfg0 (same_ms_scans m) initial_state))
     = [("000000a1", 2000%Z, IN); ("000000a1", 2000%Z, OUT); ("000000a1", 2000%Z, OUT)]
  /\ alternates IN
       (map Attendance.type
          (by_timestamp "000000a1"
             (attendanceRecords (run m cfg0 (same_ms_scans m) initial_state))))
     = false.
Proof.
  split; [|split].
  - apply run_reachable; [constructor | apply same_ms_scans_monotone].
  - destruct m; vm_compute; reflexivity.
  - destruct m; vm_compute; reflexivity.
Qed.

(** No arrangement of those three events alternates either, so the failure
    does not depend on how equal timestamps are ordered. *)
Lemma same_millisecond_scans_no_arrangement (m : Modality) (l : list Attendance.t) :
  Permutation l
    (records_of "000000a1" (attendanceRecords (run m cfg0 (same_ms_scans m) initial_state))) ->
  alternates IN (map Attendance.type l) = false.
Proof.
  intros Hp.
  apply (Permutation_map Attendance.type) in Hp.
  assert (E : map Attendance.type
                (records_of "000000a1"
                   (attendanceRecords (run m cfg0 (same_ms_scans m) initial_state)))
              = [IN; OUT; OUT]) by (destruct m; vm_compute; reflexivity).
  rewrite E in Hp. clear E.
  pose proof (Permutation_length Hp) as Hlen.
  pose proof (proj1 (Permutation_count_occ EventType_eq_dec _ _) Hp IN) as Hc.
  destruct (map Attendance.type l) as [|a [|b [|c [|d t]]]]; try discriminate.
  destruct a, b, c; try reflexivity. discriminate.
Qed.

Lemma same_millisecond_scans_break_invariant (m : Modality) :
  ~ alternation_invariant (run m cfg0 (same_ms_scans m) initial_state).
Proof.
  intros H. specialize (H "000000a1").
  destruct m; vm_compute in H; discriminate.
Qed.

(* ------------------------------------------------------------------ *)
(** ** A scan after two events that share a timestamp *)

(** C1. After an enrollment and two scans handled in the same millisecond the
    history of the identity is IN, OUT, both stamped 2000.  The most recent
    prior event is the OUT, by recording order and by a tie-break on the
    greater event id alike, so the next scan ought to record IN.  Whatever
    the clock reads at that scan, it is answered 200 and records OUT:
    [lastRecord] returns the IN, the first recorded of the two tied events. *)
Theorem scan_after_tied_events_records_OUT (m : Modality) (env : Env) :
  reachable m cfg0 monotone_clock (run m cfg0 (tied_scans m) initial_state)
  /\ records_of "000000a1" (attendanceRecords (run m cfg0 (tied_scans m) initial_state))
     = [tied_IN; tied_OUT]
  /\ most_recent_of [tied_IN; tied_OUT] tied_OUT
  /\ latest_by_id [tied_IN; tied_OUT] tied_OUT
  /\ lastRecord "000000a1" (attendanceRecords (run m cfg0 (tied_scans m) initial_state))
     = Some tied_IN
  /\ status (response (app m cfg0 env (run m cfg0 (tied_scans m) initial_state)
                         (scan_req m (numbers 120 7)))) = 200
  /\ attendanceRecords (state (app m cfg0 env (run m cfg0 (tied_scans m) initial_state)
                                 (scan_req m (numbers 120 7))))
     = [tied_IN; tied_OUT;
        Attendance.mk (toHex (randomBytes4 env)) "000000a1" (now env) OUT "10.0.0.7"].
Proof.
  repeat split.
  - apply run_reachable; [constructor|].
    destruct m; cbn; unfold monotone_clock; cbn;
      repeat split; repeat constructor; cbn; lia.
  - destruct m; vm_compute; reflexivity.
  - exists [tied_IN], []. repeat split; repeat constructor. simpl. lia.
  - right. left. reflexivity.
  - repeat constructor; right; split; reflexivity.
  - destruct m; vm_compute; reflexivity.
  - destruct m; vm_compute; reflexivity.
  - destruct m; vm_compute; reflexivity.
Qed.

(* ------------------------------------------------------------------ *)
(** ** The identification stubs *)

(** On an array, a stub looks at the length of the probe and at the first
    enrolled user, and at nothing else. *)
Lemma identifyUser_array (m : Modality) (us : list User.t) (probe : list JValue) :
  identifyUser m us (JArr probe)
  = if Nat.ltb (List.length probe) (floor m) then (None, [MatcherMalformed])
    else
      match us with
      | mockUser :: _ =>
          if accepted_length m (List.length probe) then
            (Some (User.id mockUser), [MatcherMatched (User.id mockUser)])
          else (None, [])
      | [] => (None, [])
      end.
Proof.
  destruct m;
    cbv beta iota delta [identifyUser identifyUserFromVector identifyUserFromFingerprint
                         length_lt length_gt js_length truthy isArray floor
                         accepted_length negb orb].
  - reflexivity.
  - destruct (Nat.ltb_spec (List.length probe) 50); [reflexivity|].
    destruct us; [reflexivity|].
    destruct (Nat.leb_spec 50 (List.length probe)); [reflexivity | lia].
Qed.

Lemma accepted_length_floor (m : Modality) (n : nat) :
  accepted_length m n = true -> floor m <= n.
Proof.
  destruct m; cbv beta iota delta [accepted_length floor]; intros H.
  - apply Nat.ltb_lt in H. lia.
  - now apply Nat.leb_le in H.
Qed.

Lemma identifyUser_found_length (m : Modality) (us : list User.t) (probe : list JValue)
    (userId : string) :
  fst (identifyUser m us (JArr probe)) = Some userId -> floor m <= List.length probe.
Proof.
  rewrite identifyUser_array.
  destruct (Nat.ltb_spec (List.length probe) (floor m)); [discriminate|].
  intros _. assumption.
Qed.

(** C4 as amended. Resolution applies no confidence threshold: on a probe of
    accepted length (more than 100 entries for a face, at least 50 for a
    fingerprint) it returns the first enrolled identity whatever the probe and
    the stored templates contain, and it returns nothing only when the probe
    is too short or nobody is enrolled.  The database-backed stub does the
    same on the first document of the collection. *)
Theorem resolution_by_length_only (m : Modality) (us : list User.t) (probe : list JValue)
    (db : Mongo.Db) :
  fst (identifyUser m us (JArr probe))
  = (if accepted_length m (List.length probe) then option_map User.id (hd_error us) else None)
  /\ Mongo.identifyUserFromFingerprint db (JArr probe)
     = (if Nat.leb 50 (List.length probe) then
          if Mongo.connected db then
            Some (option_map Mongo.UserDoc._id (hd_error (Mongo.User db)))
          else None
        else Some None).
Proof.
  split.
  - rewrite identifyUser_array.
    destruct (Nat.ltb_spec (List.length probe) (floor m)) as [Hlt|Hge].
    + destruct (accepted_length m (List.length probe)) eqn:E; [|reflexivity].
      apply accepted_length_floor in E. lia.
    + destruct us; simpl.
      * now destruct (accepted_length m (List.length probe)).
      * now destruct (accepted_length m (List.length probe)).
  - cbv beta iota delta [Mongo.identifyUserFromFingerprint length_lt js_length truthy
                           isArray negb orb].
    destruct (Nat.ltb_spec (List.length probe) 50), (Nat.leb_spec 50 (List.length probe));
      try lia; [reflexivity|].
    destruct (Mongo.connected db); [|reflexivity].
    now destruct (Mongo.User db).
Qed.

(** C4, refuted as stated: with the sample matcher and threshold 1, both
    stubs return Alice for a probe that agrees with her template nowhere. *)
Lemma stubs_ignore_threshold :
  ~ honours_threshold agreement 1 (identifyUser Facial)
  /\ ~ honours_threshold agreement 1 (identifyUser Fingerprint).
Proof.
  split; intros H.
  - specialize (H (users (alice_enrolled Facial)) (numbers 120 0) "000000a1"
                  (User.mk "000000a1" (JStr "Alice") (numbers 120 7) 1000)
                  eq_refl eq_refl).
    vm_compute in H. apply H. reflexivity.
  - specialize (H (users (alice_enrolled Fingerprint)) (numbers 120 0) "000000a1"
                  (User.mk "000000a1" (JStr "Alice") (numbers 120 7) 1000)
                  eq_refl eq_refl).
    vm_compute in H. apply H. reflexivity.
Qed.

(* ------------------------------------------------------------------ *)
(** ** Short probes *)

Lemma scan_short_probe (m : Modality) (env : Env) (st : State) (req : Request)
    (probe : list JValue) :
  prop (probe_field m) (body req) = Some (JArr probe) ->
  1 <= List.length probe < floor m ->
  check_in_out m env st req
  = mkOutcome (mkResponse 404 (BMessage (not_recognized_text m))) st
      [MatcherMalformed; AttendanceFailed].
Proof.
  intros Hp [H1 Hlt]. unfold check_in_out. rewrite Hp.
  destruct probe as [|x xs]; [simpl in H1; lia|].
  rewrite identifyUser_array.
  destruct (Nat.ltb_spec (List.length (x :: xs)) (floor m)); [reflexivity | lia].
Qed.

(** C3 as amended. An authorised scan whose probe is a non-empty array
    shorter than the floor is answered 404 with the "not recognized" body,
    the store is unchanged and the stub stops at its length check: the
    outcome does not depend on who is enrolled.  That response is the one a
    probe of accepted length gets when nobody is enrolled.  Status 400 is
    kept for a probe that is missing, not an array, or empty. *)
Theorem short_probe_not_recognized (m : Modality) (cfg : Config) (env : Env) (st : State)
    (req : Request) :
  method req = POST ->
  path req = ["api"; "v1"; "attendance"; "check_in_out"] ->
  apiAuth cfg req = true ->
  (forall probe,
      prop (probe_field m) (body req) = Some (JArr probe) ->
      1 <= List.length probe < floor m ->
      app m cfg env st req
      = mkOutcome (mkResponse 404 (BMessage (not_recognized_text m))) st
          [AuthValidated ["attendance"; "check_in_out"]; MatcherMalformed; AttendanceFailed])
  /\ (forall probe,
         prop (probe_field m) (body req) = Some (JArr probe) ->
         accepted_length m (List.length probe) = true ->
         users st = [] ->
         response (app m cfg env st req)
         = mkResponse 404 (BMessage (not_recognized_text m)))
  /\ (status (response (app m cfg env st req)) = 400
      <-> forall x xs, prop (probe_field m) (body req) <> Some (JArr (x :: xs))).
Proof.
  intros Hm Hp Ha. rewrite (app_scan_route m cfg env st req Hm Hp), Ha.
  split; [|split].
  - intros probe Hprobe Hlen.
    now rewrite (scan_short_probe m env st req probe Hprobe Hlen).
  - intros probe Hprobe Hlen Hus. simpl.
    unfold check_in_out. rewrite Hprobe.
    destruct probe as [|x xs]; [destruct m; discriminate|].
    rewrite identifyUser_array, Hus.
    destruct (Nat.ltb (List.length (x :: xs)) (floor m)); reflexivity.
  - simpl.
    destruct (check_in_out_cases m env st req)
      as [(Hr & _ & _ & Hn) | [(x & xs & lines & Hprobe & _ & Hr & _)
                              | (x & xs & lines & userId & Hprobe & _ & _ & Hr & _)]];
      rewrite Hr; simpl.
    + split; auto.
    + split; [discriminate|]. intros H. now apply H in Hprobe.
    + split; [discriminate|]. intros H. now apply H in Hprobe.
Qed.

Lemma short_probe_not_recognized_witness :
  app Facial cfg0 (env_at 2000 x01) (alice_enrolled Facial) (scan_req Facial (numbers 10 7))
  = mkOutcome (mkResponse 404 (BMessage (not_recognized_text Facial)))
      (alice_enrolled Facial)
      [AuthValidated ["attendance"; "check_in_out"]; MatcherMalformed; AttendanceFailed].
Proof.
  refine (proj1 (short_probe_not_recognized Facial cfg0 (env_at 2000 x01)
                   (alice_enrolled Facial) (scan_req Facial (numbers 10 7))
                   eq_refl eq_refl eq_refl) (numbers 10 7) eq_refl _).
  simpl. lia.
Defined.

(** C3, refuted as stated: a probe of length 10 is answered 404, not 400, in
    both variants. *)
Lemma probe_of_length_10_gets_404 :
  List.length (numbers 10 7) < floor Facial
  /\ List.length (numbers 10 7) < floor Fingerprint
  /\ status (response (app Facial cfg0 (env_at 2000 x01) (alice_enrolled Facial)
                         (scan_req Facial (numbers 10 7)))) = 404
  /\ status (response (app Fingerprint cfg0 (env_at 2000 x01) (alice_enrolled Fingerprint)
                         (scan_req Fingerprint (numbers 10 7)))) = 404
  /\ status (response (app Facial cfg0 (env_at 2000 x01) (alice_enrolled Facial)
                         (scan_req Facial (numbers 10 7)))) <> 400
  /\ status (response (app Fingerprint cfg0 (env_at 2000 x01) (alice_enrolled Fingerprint)
                         (scan_req Fingerprint (numbers 10 7)))) <> 400.
Proof.
  repeat split; try (simpl; lia); try (vm_compute; reflexivity);
    vm_compute; discriminate.
Qed.

(* ------------------------------------------------------------------ *)
(** ** A face probe of exactly 100 entries *)

(** C9. In the facial variant a probe of exactly 100 entries passes the
    length check (no "malformed" line is logged) and fails the match test,
    whoever is enrolled: the stub returns nothing and the scan is answered
    404 "not recognized" with the store unchanged. *)
Theorem facial_probe_of_100_never_matches (us : list User.t) (probe : list JValue) :
  List.length probe = 100 ->
  identifyUserFromVector us (JArr probe) = (None, [])
  /\ forall cfg env st req,
      method req = POST ->
      path req = ["api"; "v1"; "attendance"; "check_in_out"] ->
      apiAuth cfg req = true ->
      prop "incomingVector" (body req) = Some (JArr probe) ->
      response (app Facial cfg env st req)
      = mkResponse 404 (BMessage (not_recognized_text Facial))
      /\ state (app Facial cfg env st req) = st.
Proof.
  intros Hlen.
  assert (Hid : forall us', identifyUserFromVector us' (JArr probe) = (None, [])).
  { intros us'. unfold identifyUserFromVector, length_lt, length_gt. simpl.
    rewrite Hlen. simpl. now destruct us'. }
  split; [apply Hid|].
  intros cfg env st req Hm Hp Ha Hprobe.
  rewrite (app_scan_route Facial cfg env st req Hm Hp), Ha.
  unfold check_in_out. simpl probe_field. rewrite Hprobe.
  destruct probe as [|x xs]; [discriminate|].
  simpl identifyUser. rewrite Hid. split; reflexivity.
Qed.

Lemma facial_probe_of_100_never_matches_witness :
  identifyUserFromVector (users (alice_enrolled Facial)) (JArr (numbers 100 7)) = (None, [])
  /\ response (app Facial cfg0 (env_at 2000 x01) (alice_enrolled Facial)
                 (scan_req Facial (numbers 100 7)))
     = mkResponse 404 (BMessage (not_recognized_text Facial)).
Proof.
  destruct (facial_probe_of_100_never_matches (users (alice_enrolled Facial))
              (numbers 100 7) eq_refl) as [H1 H2].
  split; [exact H1|].
  exact (proj1 (H2 cfg0 (env_at 2000 x01) (alice_enrolled Facial)
                  (scan_req Facial (numbers 100 7)) eq_refl eq_refl eq_refl eq_refl)).
Defined.

(* ------------------------------------------------------------------ *)
(** ** Enrollment *)

Lemma enroll_accepts (m : Modality) (env : Env) (st : State) (req : Request)
    (name : JValue) (t : list JValue) :
  prop "name" (body req) = Some name ->
  truthy name = true ->
  prop (template_field m) (body req) = Some (JArr t) ->
  1 <= List.length t ->
  enroll m env st req
  = mkOutcome
      (mkResponse 201 (BUser (enrolled_text m) (toHex (randomBytes4 env)) name (now env)))
      (mkState (users st ++ [User.mk (toHex (randomBytes4 env)) name t (now env)])
         (attendanceRecords st))
      [UserEnrolled name (toHex (randomBytes4 env))].
Proof.
  intros Hn Ht Hv Hlen. unfold enroll. rewrite Hn, Hv.
  destruct t as [|x xs]; [simpl in Hlen; lia|].
  rewrite Ht. reflexivity.
Qed.

(** C10. Enrollment accepts every template with at least one entry: an
    authorised request with a truthy name is answered 201 and appends an
    identity holding that template.  No floor applies, so when the template
    is shorter than the floor the enrolled identity holds a template shorter
    than every probe on which the stub returns an identity. *)
Theorem enrollment_has_no_floor (m : Modality) (cfg : Config) (env : Env) (st : State)
    (req : Request) (name : JValue) (t : list JValue) :
  method req = POST ->
  path req = ["api"; "v1"; "users"; "enroll"] ->
  apiAuth cfg req = true ->
  prop "name" (body req) = Some name ->
  truthy name = true ->
  prop (template_field m) (body req) = Some (JArr t) ->
  1 <= List.length t ->
  status (response (app m cfg env st req)) = 201
  /\ state (app m cfg env st req)
     = mkState (users st ++ [User.mk (toHex (randomBytes4 env)) name t (now env)])
         (attendanceRecords st)
  /\ (List.length t < floor m ->
      forall us probe userId,
        fst (identifyUser m us (JArr probe)) = Some userId ->
        List.length t < List.length probe).
Proof.
  intros Hm Hp Ha Hn Ht Hv Hlen.
  rewrite (app_enroll_route m cfg env st req Hm Hp), Ha.
  rewrite (enroll_accepts m env st req name t Hn Ht Hv Hlen).
  split; [reflexivity|]. split; [reflexivity|].
  intros Hshort us probe userId Hid.
  apply identifyUser_found_length in Hid. lia.
Qed.

Lemma enrollment_has_no_floor_witness :
  status (response (app Fingerprint cfg0 (env_at 1000 xb2) initial_state
                      (enroll_req Fingerprint (JStr "Bob") (numbers 1 7)))) = 201
  /\ state (app Fingerprint cfg0 (env_at 1000 xb2) initial_state
              (enroll_req Fingerprint (JStr "Bob") (numbers 1 7)))
     = mkState [User.mk "000000b2" (JStr "Bob") (numbers 1 7) 1000] []
  /\ (List.length (numbers 1 7) < floor Fingerprint ->
      forall us probe userId,
        fst (identifyUser Fingerprint us (JArr probe)) = Some userId ->
        List.length (numbers 1 7) < List.length probe).
Proof.
  apply (enrollment_has_no_floor Fingerprint cfg0 (env_at 1000 xb2) initial_state
           (enroll_req Fingerprint (JStr "Bob") (numbers 1 7)) (JStr "Bob") (numbers 1 7));
    reflexivity.
Defined.

(* ------------------------------------------------------------------ *)
(** ** The access gate *)

Lemma apiAuth_true (cfg : Config) (req : Request) :
  apiAuth cfg req = true -> x_api_key req = Some (REQUIRED_API_KEY cfg).
Proof.
  unfold apiAuth. destruct (x_api_key req) as [k|]; [|discriminate].
  rewrite andb_true_iff, String.eqb_eq. now intros [_ ->].
Qed.

(** C6. A request under [/api/v1] whose [X-API-Key] header is not exactly the
    server's key is answered 401; the store is unchanged and the only console
    line is the denial, so no route, stub or ledger code has run.  A GET on
    [/health] is answered 200 whatever the header holds. *)
Theorem gate_blocks_api_and_exempts_health (m : Modality) (cfg : Config) (env : Env)
    (st : State) (req : Request) :
  (forall sub,
      path req = "api" :: "v1" :: sub ->
      x_api_key req <> Some (REQUIRED_API_KEY cfg) ->
      app m cfg env st req
      = mkOutcome
          (mkResponse 401
             (BMessage [Lit "Unauthorized: Invalid or missing X-API-Key header."]))
          st [AuthDenied (ip req)])
  /\ (method req = GET ->
      path req = ["health"] ->
      status (response (app m cfg env st req)) = 200
      /\ state (app m cfg env st req) = st).
Proof.
  split.
  - intros sub Hp Hk. unfold app. rewrite Hp.
    change ("api" :: "v1" :: sub) with (["api"; "v1"] ++ sub).
    rewrite mounted_under_app. unfold router.
    destruct (apiAuth cfg req) eqn:Ha; [|reflexivity].
    apply apiAuth_true in Ha. contradiction.
  - intros Hm Hp. unfold app, route_matches. rewrite Hp, Hm. split; reflexivity.
Qed.

Lemma gate_blocks_api_and_exempts_health_witness :
  app Facial cfg0 (env_at 2000 x01) (alice_enrolled Facial) guessed_key_scan
  = mkOutcome
      (mkResponse 401 (BMessage [Lit "Unauthorized: Invalid or missing X-API-Key header."]))
      (alice_enrolled Facial) [AuthDenied "10.0.0.8"]
  /\ status (response (app Facial cfg0 (env_at 2000 x01) (alice_enrolled Facial) health_req))
     = 200.
Proof.
  split.
  - refine (proj1 (gate_blocks_api_and_exempts_health Facial cfg0 (env_at 2000 x01)
                     (alice_enrolled Facial) guessed_key_scan)
                ["attendance"; "check_in_out"] eq_refl _).
    simpl. discriminate.
  - exact (proj1 (proj2 (gate_blocks_api_and_exempts_health Facial cfg0 (env_at 2000 x01)
                           (alice_enrolled Facial) health_req) eq_refl eq_refl)).
Defined.

(* ------------------------------------------------------------------ *)
(** ** The report *)


Lemma detailedReport_perm (us : list User.t) (selected : list Attendance.t) :
  Permutation (detailedReport us selected) (map (detail us) selected).
Proof. apply js_sort_perm. Qed.






Lemma report_unknown_identity (m : Modality) (st : State) (req : Request) (userId : string) :
  query_userId req = Some userId ->
  userId <> "" ->
  (forall u, In u (users st) -> User.id u <> userId) ->
  report m st req = mkOutcome (mkResponse 404 (BMessage (not_found_text m userId))) st [].
Proof.
  intros Hq Hne Hun. unfold report. rewrite Hq.
  destruct (String.eqb_spec userId ""); [contradiction|].
  destruct (existsb (fun u => User.id u =? userId) (users st)) eqn:E; [|reflexivity].
  apply existsb_exists in E. destruct E as (u & Hin & Heq).
  apply String.eqb_eq in Heq. exfalso. eapply Hun; eassumption.
Qed.

Lemma mongo_report_status (isValid : string -> bool) (db : Mongo.Db) (req : Request) :
  Mongo.mstatus (Mongo.report isValid db req) = 200
  \/ Mongo.mstatus (Mongo.report isValid db req) = 400
  \/ Mongo.mstatus (Mongo.report isValid db req) = 500.
Proof.
  unfold Mongo.report, Mongo.report_query, Mongo.find_report.
  destruct (query_userId req) as [userId|].
  - destruct (userId =? "").
    + destruct (Mongo.connected db); simpl; auto.
    + destruct (isValid userId); simpl; [|auto].
      destruct (Mongo.connected db); simpl; auto.
  - destruct (Mongo.connected db); simpl; auto.
Qed.

(** C8 as amended. In the in-memory variants an authorised report request
    with a non-empty [userId] filter that names no enrolled identity is
    answered 404 and leaves the store unchanged.  The database-backed report
    never answers 404: a filter that is not a well-formed identifier is
    answered 400, and any other request gets the listing, or 500 when the
    query fails. *)
Theorem report_unknown_identity_status (m : Modality) (cfg : Config) (env : Env)
    (st : State) (req : Request) (userId : string)
    (isValid : string -> bool) (db : Mongo.Db) :
  query_userId req = Some userId ->
  userId <> "" ->
  (method req = GET ->
   path req = ["api"; "v1"; "attendance"; "report"] ->
   apiAuth cfg req = true ->
   (forall u, In u (users st) -> User.id u <> userId) ->
   response (app m cfg env st req) = mkResponse 404 (BMessage (not_found_text m userId))
   /\ state (app m cfg env st req) = st)
  /\ Mongo.mstatus (Mongo.report isValid db req) <> 404
  /\ (isValid userId = false -> Mongo.mstatus (Mongo.report isValid db req) = 400)
  /\ (isValid userId = true ->
      Mongo.mstatus (Mongo.report isValid db req) = 200
      \/ Mongo.mstatus (Mongo.report isValid db req) = 500).
Proof.
  intros Hq Hne. split; [|split; [|split]].
  - intros Hm Hp Ha Hun.
    rewrite (app_report_route m cfg env st req Hm Hp), Ha.
    rewrite (report_unknown_identity m st req userId Hq Hne Hun). split; reflexivity.
  - destruct (mongo_report_status isValid db req) as [H | [H | H]]; rewrite H; discriminate.
  - intros Hv. unfold Mongo.report. rewrite Hq.
    destruct (String.eqb_spec userId ""); [contradiction|].
    rewrite Hv. reflexivity.
  - intros Hv. unfold Mongo.report, Mongo.report_query, Mongo.find_report. rewrite Hq.
    destruct (String.eqb_spec userId ""); [contradiction|].
    rewrite Hv. simpl. destruct (Mongo.connected db); simpl; auto.
Qed.

Lemma report_unknown_identity_status_witness :
  response (app Facial cfg0 (env_at 3000 x00) (alice_enrolled Facial)
              (report_req (Some "s3cr3t") (Some "0badf00d")))
  = mkResponse 404 (BMessage (not_found_text Facial "0badf00d"))
  /\ Mongo.mstatus (Mongo.report Mongo.ObjectId_isValid empty_db
                      (report_req (Some "s3cr3t") (Some "0badf00d"))) = 400.
Proof.
  destruct (report_unknown_identity_status Facial cfg0 (env_at 3000 x00)
              (alice_enrolled Facial) (report_req (Some "s3cr3t") (Some "0badf00d"))
              "0badf00d" Mongo.ObjectId_isValid empty_db eq_refl)
    as (Hmem & _ & Hbad & _).
  - discriminate.
  - split.
    + apply Hmem; try reflexivity.
      intros u [<- | []]. vm_compute. discriminate.
    + apply Hbad. reflexivity.
Defined.

(** C8, refuted as stated: in the database-backed variant a report filtered
    on a well-formed identifier that nobody holds is answered 200, and one
    filtered on an ill-formed identifier 400; neither is answered 404. *)
Lemma mongo_report_unknown_identity_not_404 :
  Mongo.User empty_db = []
  /\ Mongo.mstatus (Mongo.report Mongo.ObjectId_isValid empty_db
                      (report_req (Some "s3cr3t") (Some some_object_id))) = 200
  /\ Mongo.mstatus (Mongo.report Mongo.ObjectId_isValid empty_db
                      (report_req (Some "s3cr3t") (Some "0badf00d"))) = 400.
Proof. repeat split. Qed.

(* ------------------------------------------------------------------ *)
(** ** Templates and response bodies *)
















(* ------------------------------------------------------------------ *)
(** ** Responses do not depend on what templates contain *)

Lemma forget_template_idem (u : User.t) :
  forget_template (forget_template u) = forget_template u.
Proof. reflexivity. Qed.

Lemma find_user_forget (us : list User.t) (userId : string) :
  find_user (map forget_template us) userId
  = option_map forget_template (find_user us userId).
Proof.
  unfold find_user. induction us as [|u us IH]; simpl; [reflexivity|].
  destruct (User.id u =? userId); [reflexivity | exact IH].
Qed.

Lemma display_name_forget (m : Modality) (us : list User.t) (userId : string) :
  display_name m (map forget_template us) userId = display_name m us userId.
Proof.
  unfold display_name. rewrite find_user_forget.
  destruct (find_user us userId); reflexivity.
Qed.

Lemma detail_forget (us : list User.t) (r : Attendance.t) :
  detail (map forget_template us) r = detail us r.
Proof.
  unfold detail. rewrite find_user_forget.
  destruct (find_user us (Attendance.userId r)); reflexivity.
Qed.

Lemma detailedReport_forget (us : list User.t) (selected : list Attendance.t) :
  detailedReport (map forget_template us) selected = detailedReport us selected.
Proof.
  unfold detailedReport. f_equal. apply map_ext. intros r. apply detail_forget.
Qed.

Lemma existsb_id_forget (us : list User.t) (userId : string) :
  existsb (fun u => User.id u =? userId) (map forget_template us)
  = existsb (fun u => User.id u =? userId) us.
Proof.
  induction us as [|u us IH]; simpl; [reflexivity|]. now rewrite IH.
Qed.

Lemma identifyUser_forget (m : Modality) (us : list User.t) (v : JValue) :
  identifyUser m (map forget_template us) v = identifyUser m us v.
Proof.
  destruct m; simpl; unfold identifyUserFromVector, identifyUserFromFingerprint;
    destruct us; reflexivity.
Qed.

Lemma identifyUser_same_length (m : Modality) (us : list User.t) (p q : list JValue) :
  List.length p = List.length q ->
  identifyUser m us (JArr p) = identifyUser m us (JArr q).
Proof. intros H. rewrite !identifyUser_array, H. reflexivity. Qed.

Lemma forget_state_snoc_user (st : State) (u : User.t) :
  forget_state (mkState (users (forget_state st) ++ [u]) (attendanceRecords st))
  = forget_state (mkState (users st ++ [u]) (attendanceRecords st)).
Proof.
  unfold forget_state. simpl. rewrite !map_app, map_map. reflexivity.
Qed.

Lemma forget_state_idem (st : State) : forget_state (forget_state st) = forget_state st.
Proof.
  unfold forget_state. simpl. rewrite map_map. reflexivity.
Qed.

(** An outcome seen without the stored templates. *)
Lemma enroll_forget (m : Modality) (env : Env) (st : State) (req : Request) :
  response (enroll m env (forget_state st) req) = response (enroll m env st req)
  /\ console (enroll m env (forget_state st) req) = console (enroll m env st req)
  /\ forget_state (state (enroll m env (forget_state st) req))
     = forget_state (state (enroll m env st req)).
Proof.
  unfold enroll.
  destruct (prop "name" (body req)) as [name|];
    [|simpl; auto using forget_state_idem].
  destruct (prop (template_field m) (body req)) as [[| | | |[|x xs]|]|];
    try (simpl; auto using forget_state_idem).
  destruct (truthy name); [|simpl; auto using forget_state_idem].
  cbn [response console state]. repeat split.
  apply forget_state_snoc_user.
Qed.

Lemma check_in_out_forget (m : Modality) (env : Env) (st : State) (req : Request) :
  response (check_in_out m env (forget_state st) req) = response (check_in_out m env st req)
  /\ console (check_in_out m env (forget_state st) req) = console (check_in_out m env st req)
  /\ forget_state (state (check_in_out m env (forget_state st) req))
     = forget_state (state (check_in_out m env st req)).
Proof.
  unfold check_in_out.
  destruct (prop (probe_field m) (body req)) as [[| | | |[|x xs]|]|];
    try (simpl; auto using forget_state_idem).
  cbn [users attendanceRecords forget_state].
  rewrite identifyUser_forget.
  destruct (identifyUser m (users st) (JArr (x :: xs))) as [[userId|] lines];
    [|cbn [response console state]; repeat split; apply forget_state_idem].
  destruct (userId =? "");
    [cbn [response console state]; repeat split; apply forget_state_idem|].
  rewrite display_name_forget.
  cbn [response console state]. repeat split.
  unfold forget_state. simpl. rewrite map_map. reflexivity.
Qed.

Lemma report_forget (m : Modality) (st : State) (req : Request) :
  response (report m (forget_state st) req) = response (report m st req)
  /\ console (report m (forget_state st) req) = console (report m st req)
  /\ forget_state (state (report m (forget_state st) req))
     = forget_state (state (report m st req)).
Proof.
  rewrite !report_state. split; [|split; [|apply forget_state_idem]].
  - unfold report, report_ok. cbn [users attendanceRecords forget_state].
    destruct (query_userId req) as [userId|];
      [|rewrite detailedReport_forget; reflexivity].
    destruct (userId =? ""); [rewrite detailedReport_forget; reflexivity|].
    rewrite existsb_id_forget.
    destruct (existsb _ _); [rewrite detailedReport_forget|]; reflexivity.
  - unfold report, report_ok. cbn [users attendanceRecords forget_state].
    destruct (query_userId req) as [userId|]; [|reflexivity].
    destruct (userId =? ""); [reflexivity|].
    rewrite existsb_id_forget.
    now destruct (existsb _ _).
Qed.

Lemma app_forget (m : Modality) (cfg : Config) (env : Env) (st : State) (req : Request) :
  response (app m cfg env (forget_state st) req) = response (app m cfg env st req)
  /\ console (app m cfg env (forget_state st) req) = console (app m cfg env st req)
  /\ forget_state (state (app m cfg env (forget_state st) req))
     = forget_state (state (app m cfg env st req)).
Proof.
  unfold app.
  destruct (mounted_under ["api"; "v1"] (path req)) as [sub|].
  - unfold router. destruct (apiAuth cfg req);
      [|simpl; auto using forget_state_idem].
    unfold routes, prepend. cbn [response console state].
    destruct (route_matches POST ["users"; "enroll"] req sub).
    { destruct (enroll_forget m env st req) as (-> & -> & ->). auto. }
    destruct (route_matches POST ["attendance"; "check_in_out"] req sub).
    { destruct (check_in_out_forget m env st req) as (-> & -> & ->). auto. }
    destruct (route_matches GET ["attendance"; "report"] req sub).
    { destruct (report_forget m st req) as (-> & -> & ->). auto. }
    simpl. auto using forget_state_idem.
  - destruct (route_matches GET ["health"] req (path req)); simpl.
    + rewrite length_map. auto using forget_state_idem.
    + auto using forget_state_idem.
Qed.

Lemma enroll_same_shape (m : Modality) (env : Env) (st : State) (r1 r2 : Request) :
  prop "name" (body r1) = prop "name" (body r2) ->
  same_shape (prop (template_field m) (body r1)) (prop (template_field m) (body r2)) ->
  response (enroll m env st r1) = response (enroll m env st r2)
  /\ console (enroll m env st r1) = console (enroll m env st r2)
  /\ forget_state (state (enroll m env st r1)) = forget_state (state (enroll m env st r2)).
Proof.
  intros Hn Ht. unfold enroll. rewrite Hn.
  destruct (prop "name" (body r2)) as [name|]; [|auto].
  destruct (prop (template_field m) (body r1)) as [[| | | |[|x xs]|]|],
           (prop (template_field m) (body r2)) as [[| | | |[|y ys]|]|];
    simpl in Ht; try discriminate Ht; auto.
  destruct (truthy name); [|auto].
  cbn [response console state]. repeat split.
  unfold forget_state. simpl. rewrite !map_app. reflexivity.
Qed.

Lemma check_in_out_same_shape (m : Modality) (env : Env) (st : State) (r1 r2 : Request) :
  ip r1 = ip r2 ->
  same_shape (prop (probe_field m) (body r1)) (prop (probe_field m) (body r2)) ->
  response (check_in_out m env st r1) = response (check_in_out m env st r2)
  /\ console (check_in_out m env st r1) = console (check_in_out m env st r2)
  /\ forget_state (state (check_in_out m env st r1))
     = forget_state (state (check_in_out m env st r2)).
Proof.
  intros Hip Ht. unfold check_in_out.
  destruct (prop (probe_field m) (body r1)) as [[| | | |[|x xs]|]|],
           (prop (probe_field m) (body r2)) as [[| | | |[|y ys]|]|];
    simpl in Ht; try discriminate Ht; auto.
  rewrite (identifyUser_same_length m (users st) (x :: xs) (y :: ys) Ht), Hip.
  auto.
Qed.

Lemma app_same_shape (m : Modality) (cfg : Config) (env : Env) (st : State)
    (r1 r2 : Request) :
  same_but_template_entries m r1 r2 ->
  response (app m cfg env st r1) = response (app m cfg env st r2)
  /\ console (app m cfg env st r1) = console (app m cfg env st r2)
  /\ forget_state (state (app m cfg env st r1)) = forget_state (state (app m cfg env st r2)).
Proof.
  intros (Hm & Hp & Hk & Hq & Hip & Hn & Ht & Hpr).
  unfold app. rewrite Hp.
  destruct (mounted_under ["api"; "v1"] (path r2)) as [sub|].
  - unfold router, apiAuth, unauthorized. rewrite Hk, Hip.
    destruct (match x_api_key r2 with
              | Some apiKey => negb (apiKey =? "") && (apiKey =? REQUIRED_API_KEY cfg)
              | None => false
              end); [|auto].
    unfold routes, route_matches, prepend. rewrite Hm. cbn [response console state].
    destruct (Method_eqb (method r2) POST && path_eqb sub ["users"; "enroll"]).
    { destruct (enroll_same_shape m env st r1 r2 Hn Ht) as (-> & -> & ->). auto. }
    destruct (Method_eqb (method r2) POST && path_eqb sub ["attendance"; "check_in_out"]).
    { destruct (check_in_out_same_shape m env st r1 r2 Hip Hpr) as (-> & -> & ->). auto. }
    destruct (Method_eqb (method r2) GET && path_eqb sub ["attendance"; "report"]).
    { unfold report. rewrite Hq. auto. }
    auto.
  - unfold route_matches. rewrite Hm. auto.
Qed.

(** X1. The response and the console are the same for two stores that differ only
    in the stored templates and two requests that differ only in the entries
    of the templates they carry; the stores afterwards again differ only in
    the stored templates.  So nothing a caller or the log sees depends on what
    a template contains, for requests of any shape. *)
Theorem responses_ignore_template_entries (m : Modality) (cfg : Config) (env : Env)
    (s1 s2 : State) (r1 r2 : Request) :
  same_but_templates s1 s2 ->
  same_but_template_entries m r1 r2 ->
  response (app m cfg env s1 r1) = response (app m cfg env s2 r2)
  /\ console (app m cfg env s1 r1) = console (app m cfg env s2 r2)
  /\ same_but_templates (state (app m cfg env s1 r1)) (state (app m cfg env s2 r2)).
Proof.
  unfold same_but_templates. intros Hs Hr.
  destruct (app_forget m cfg env s1 r1) as (R1 & C1 & S1).
  destruct (app_forget m cfg env s2 r1) as (R2 & C2 & S2).
  destruct (app_same_shape m cfg env s2 r1 r2 Hr) as (R3 & C3 & S3).
  rewrite Hs in R1, C1, S1.
  repeat split; congruence.
Qed.

Lemma alternation_under_ticking_clock_witness :
  reachable Facial cfg0 ticking_clock (run Facial cfg0 (spaced_scans Facial) initial_state)
  /\ map Attendance.type
       (attendanceRecords (run Facial cfg0 (spaced_scans Facial) initial_state))
     = [IN; OUT]
  /\ alternation_invariant (run Facial cfg0 (spaced_scans Facial) initial_state).
Proof.
  assert (Hr : reachable Facial cfg0 ticking_clock
                 (run Facial cfg0 (spaced_scans Facial) initial_state)).
  { apply run_reachable; [constructor|].
    cbn; unfold ticking_clock; cbn. repeat split; repeat constructor; cbn; lia. }
  split; [exact Hr|]. split; [vm_compute; reflexivity|].
  exact (alternation_under_ticking_clock Facial cfg0 _ Hr).
Defined.

Lemma responses_ignore_template_entries_witness :
  response (app Facial cfg0 (env_at 2000 x01) (alice_enrolled Facial)
              (scan_req Facial (numbers 120 7)))
  = response (app Facial cfg0 (env_at 2000 x01)
                (mkState [User.mk "000000a1" (JStr "Alice") (numbers 3 9) 1000] [])
                (scan_req Facial (numbers 120 0))).
Proof.
  refine (proj1 (responses_ignore_template_entries Facial cfg0 (env_at 2000 x01)
                   (alice_enrolled Facial)
                   (mkState [User.mk "000000a1" (JStr "Alice") (numbers 3 9) 1000] [])
                   (scan_req Facial (numbers 120 7)) (scan_req Facial (numbers 120 0))
                   _ _)).
  - reflexivity.
  - repeat split; reflexivity.
Defined.

(* ================================================================== *)
(** * Further properties of the in-memory servers *)

(* ------------------------------------------------------------------ *)
(** ** What one request does to the store *)

Lemma enroll_effect (m : Modality) (env : Env) (st : State) (req : Request) :
  (enroll m env st req = mkOutcome (mkResponse 400 (BMessage (enroll_missing_text m))) st []
   /\ ~ (exists name x xs,
            prop "name" (body req) = Some name /\ truthy name = true
            /\ prop (template_field m) (body req) = Some (JArr (x :: xs))))
  \/ (exists name x xs,
        prop "name" (body req) = Some name /\ truthy name = true
        /\ prop (template_field m) (body req) = Some (JArr (x :: xs))
        /\ enroll m env st req
           = mkOutcome
               (mkResponse 201
                  (BUser (enrolled_text m) (toHex (randomBytes4 env)) name (now env)))
               (mkState
                  (users st ++ [User.mk (toHex (randomBytes4 env)) name (x :: xs) (now env)])
                  (attendanceRecords st))
               [UserEnrolled name (toHex (randomBytes4 env))]).
Proof.
  unfold enroll.
  destruct (prop "name" (body req)) as [name|] eqn:En.
  2:{ left. split; [reflexivity|]. intros (nm & x & xs & H & _). discriminate. }
  destruct (prop (template_field m) (body req)) as [[| | | |[|x xs]|]|] eqn:Et;
    try (left; split; [reflexivity|]; intros (nm & x' & xs' & _ & _ & H); discriminate).
  destruct (truthy name) eqn:Ht.
  - right. exists name, x, xs. auto.
  - left. split; [reflexivity|]. intros (nm & x' & xs' & H & Hn & _).
    injection H as <-. congruence.
Qed.

Lemma identifyUser_found_first (m : Modality) (us : list User.t) (probe : list JValue)
    (userId : string) (lines : list LogLine) :
  identifyUser m us (JArr probe) = (Some userId, lines) ->
  exists u0 rest,
    us = u0 :: rest /\ userId = User.id u0
    /\ accepted_length m (List.length probe) = true.
Proof.
  rewrite identifyUser_array.
  destruct (Nat.ltb (List.length probe) (floor m)); [discriminate|].
  destruct us as [|u0 rest]; [discriminate|].
  destruct (accepted_length m (List.length probe)); [|discriminate].
  intros [= <- _]. exists u0, rest. auto.
Qed.

(** A request leaves the store as it is, or appends one user and answers 201,
    or appends one event for the first user and answers with a record. *)
Lemma app_effect (m : Modality) (cfg : Config) (env : Env) (st : State) (req : Request) :
  (state (app m cfg env st req) = st
   /\ status (response (app m cfg env st req)) <> 201
   /\ is_record (json (response (app m cfg env st req))) = false)
  \/ (exists name t,
        state (app m cfg env st req)
        = mkState (users st ++ [User.mk (toHex (randomBytes4 env)) name t (now env)])
            (attendanceRecords st)
        /\ status (response (app m cfg env st req)) = 201
        /\ is_record (json (response (app m cfg env st req))) = false)
  \/ (exists u0 rest,
        users st = u0 :: rest
        /\ User.id u0 <> ""
        /\ state (app m cfg env st req)
           = mkState (users st)
               (attendanceRecords st
                ++ [Attendance.mk (toHex (randomBytes4 env)) (User.id u0) (now env)
                      (eventType (lastRecord (User.id u0) (attendanceRecords st)))
                      (ip req)])
        /\ status (response (app m cfg env st req)) = 200
        /\ is_record (json (response (app m cfg env st req))) = true).
Proof.
  unfold app.
  destruct (mounted_under ["api"; "v1"] (path req)) as [sub|].
  - unfold router. destruct (apiAuth cfg req);
      [|left; repeat split; discriminate].
    unfold routes, prepend. cbn [response state].
    destruct (route_matches POST ["users"; "enroll"] req sub).
    { destruct (enroll_effect m env st req)
        as [[-> _] | (name & x & xs & _ & _ & _ & ->)].
      - left. repeat split. discriminate.
      - right; left. exists name, (x :: xs). auto. }
    destruct (route_matches POST ["attendance"; "check_in_out"] req sub).
    { destruct (check_in_out_cases m env st req)
        as [(Hr & Hs & _) | [(x & xs & lines & _ & _ & Hr & Hs & _)
                            | (x & xs & lines & userId & _ & Hid & Hne & Hr & Hs & _)]].
      - left. rewrite Hr, Hs. repeat split. discriminate.
      - left. rewrite Hr, Hs. repeat split. discriminate.
      - right; right.
        destruct (identifyUser_found_first m _ _ _ _ Hid) as (u0 & rest & Hu & -> & _).
        exists u0, rest. rewrite Hr, Hs. auto. }
    destruct (route_matches GET ["attendance"; "report"] req sub).
    { left. rewrite report_state. split; [reflexivity|].
      unfold report, report_ok.
      destruct (query_userId req) as [userId|]; [|split; [discriminate | reflexivity]].
      destruct (userId =? ""); [split; [discriminate | reflexivity]|].
      destruct (existsb _ _); split; try discriminate; reflexivity. }
    left. repeat split. discriminate.
  - destruct (route_matches GET ["health"] req (path req));
      left; repeat split; discriminate.
Qed.

(** X3. A request writes to the store exactly when it answers 201 to an
    enrollment or answers a scan with a record: the first appends one user,
    the second one event, and any other response (400, 401, 404, a report, a
    health summary) leaves the store as it was. *)
Theorem only_success_writes (m : Modality) (cfg : Config) (env : Env) (st : State)
    (req : Request) :
  (status (response (app m cfg env st req)) = 201 ->
   exists u,
     state (app m cfg env st req) = mkState (users st ++ [u]) (attendanceRecords st))
  /\ (is_record (json (response (app m cfg env st req))) = true ->
      exists r,
        state (app m cfg env st req) = mkState (users st) (attendanceRecords st ++ [r]))
  /\ (status (response (app m cfg env st req)) <> 201 ->
      is_record (json (response (app m cfg env st req))) = false ->
      state (app m cfg env st req) = st).
Proof.
  destruct (app_effect m cfg env st req)
    as [(Hs & H201 & Hrec) | [(name & t & Hs & H201 & Hrec)
                             | (u0 & rest & _ & _ & Hs & H200 & Hrec)]].
  - repeat split; intros; congruence.
  - split; [intros _; eexists; exact Hs|]. split; intros; congruence.
  - split; [intros; congruence|]. split; [intros _; eexists; exact Hs|].
    intros; congruence.
Qed.

Lemma only_success_writes_witness :
  state (app Facial cfg0 (env_at 2000 x01) (alice_enrolled Facial)
           (scan_req Facial (numbers 10 7)))
  = alice_enrolled Facial.
Proof.
  apply (proj2 (proj2 (only_success_writes Facial cfg0 (env_at 2000 x01)
                         (alice_enrolled Facial) (scan_req Facial (numbers 10 7))))).
  - vm_compute. discriminate.
  - vm_compute. reflexivity.
Defined.

(** X4. The store only grows: over any run, the users and the ledger at the start
    are prefixes of the users and the ledger at the end, and at most one
    element is added per request.  Nothing is ever removed or rewritten. *)
Theorem store_is_append_only (m : Modality) (cfg : Config) (reqs : list (Env * Request))
    (st : State) :
  exists newUsers newRecords,
    users (run m cfg reqs st) = users st ++ newUsers
    /\ attendanceRecords (run m cfg reqs st) = attendanceRecords st ++ newRecords
    /\ List.length newUsers + List.length newRecords <= List.length reqs.
Proof.
  revert st. induction reqs as [|[env req] rest IH]; intros st; simpl.
  - exists [], []. rewrite !app_nil_r. auto.
  - destruct (IH (state (app m cfg env st req))) as (us & rs & Hu & Hr & Hlen).
    rewrite Hu, Hr.
    destruct (app_effect m cfg env st req)
      as [(Hs & _) | [(name & t & Hs & _) | (u0 & tl & _ & _ & Hs & _)]];
      rewrite Hs; simpl.
    + exists us, rs. repeat split. lia.
    + eexists (_ :: us), rs. rewrite <- app_assoc. simpl. repeat split. simpl. lia.
    + eexists us, (_ :: rs). rewrite <- app_assoc. simpl. repeat split. simpl. lia.
Qed.

(* ------------------------------------------------------------------ *)
(** ** Counting over a run *)

Lemma run_counts (m : Modality) (cfg : Config) (reqs : list (Env * Request)) (st : State) :
  List.length (users (run m cfg reqs st))
  = List.length (users st) + enrolled_count (run_responses m cfg reqs st)
  /\ List.length (attendanceRecords (run m cfg reqs st))
     = List.length (attendanceRecords st) + recorded_count (run_responses m cfg reqs st).
Proof.
  revert st. induction reqs as [|[env req] rest IH]; intros st.
  - simpl. unfold enrolled_count, recorded_count. simpl. lia.
  - cbn [run run_responses]. unfold enrolled_count, recorded_count in *.
    cbn [filter].
    destruct (IH (state (app m cfg env st req))) as [Hu Hr]. rewrite Hu, Hr.
    destruct (app_effect m cfg env st req)
      as [(Hs & H201 & Hrec) | [(name & t & Hs & H201 & Hrec)
                               | (u0 & tl & _ & _ & Hs & H200 & Hrec)]];
      rewrite Hs, Hrec.
    + apply Nat.eqb_neq in H201. rewrite H201. simpl. lia.
    + rewrite H201. simpl. rewrite length_app. simpl. lia.
    + rewrite H200. simpl. rewrite length_app. simpl. lia.
Qed.

(** X5. After any run from the empty store, the health summary counts exactly
    the requests of the run that were answered 201: every enrollment that
    was acknowledged is counted, and nothing else is. *)
Theorem health_counts_enrollments (m : Modality) (cfg : Config)
    (reqs : list (Env * Request)) (env : Env) (req : Request) :
  method req = GET ->
  path req = ["health"] ->
  response (app m cfg env (run m cfg reqs initial_state) req)
  = mkResponse 200
      (BHealth "ok" (service_name m)
         (enrolled_count (run_responses m cfg reqs initial_state))).
Proof.
  intros Hm Hp. unfold app, route_matches. rewrite Hp, Hm. simpl.
  unfold health. simpl.
  now rewrite (proj1 (run_counts m cfg reqs initial_state)).
Qed.

Lemma health_counts_enrollments_witness :
  response (app Facial cfg0 (env_at 3000 x00)
              (run Facial cfg0 (same_ms_scans Facial) initial_state) health_req)
  = mkResponse 200 (BHealth "ok" "Facial Biometric Backend" 1).
Proof.
  exact (health_counts_enrollments Facial cfg0 (same_ms_scans Facial) (env_at 3000 x00)
           health_req eq_refl eq_refl).
Defined.

(** X6. After any run from the empty store, an authorised report without filter
    lists exactly as many events as scans of the run were answered with a
    record, and [totalRecords] is that number. *)
Theorem report_counts_recorded_scans (m : Modality) (cfg : Config)
    (reqs : list (Env * Request)) (env : Env) (req : Request) :
  calls cfg GET ["attendance"; "report"] req ->
  query_userId req = None ->
  exists listing,
    response (app m cfg env (run m cfg reqs initial_state) req)
    = mkResponse 200
        (BReport (recorded_count (run_responses m cfg reqs initial_state)) listing)
    /\ List.length listing = recorded_count (run_responses m cfg reqs initial_state).
Proof.
  intros (Hm & Hp & Ha) Hq.
  rewrite (app_report_route m cfg env _ req Hm Hp), Ha.
  unfold report, report_ok. rewrite Hq. simpl.
  pose proof (proj2 (run_counts m cfg reqs initial_state)) as Hc. simpl in Hc.
  assert (Hlen : List.length
                   (detailedReport (users (run m cfg reqs initial_state))
                      (attendanceRecords (run m cfg reqs initial_state)))
                 = recorded_count (run_responses m cfg reqs initial_state)).
  { unfold detailedReport. rewrite js_sort_length, length_map. exact Hc. }
  eexists. split; [|exact Hlen]. now rewrite Hlen.
Qed.

Lemma report_counts_recorded_scans_witness :
  exists listing,
    response (app Facial cfg0 (env_at 3000 x00)
                (run Facial cfg0 (same_ms_scans Facial) initial_state)
                (report_req (Some "s3cr3t") None))
    = mkResponse 200 (BReport 3 listing)
    /\ List.length listing = 3.
Proof.
  exact (report_counts_recorded_scans Facial cfg0 (same_ms_scans Facial) (env_at 3000 x00)
           (report_req (Some "s3cr3t") None)
           (conj eq_refl (conj eq_refl eq_refl)) eq_refl).
Defined.

(* ------------------------------------------------------------------ *)
(** ** Who is credited *)

Lemma toHex_length (bs : byte * byte * byte * byte) : String.length (toHex bs) = 8.
Proof. destruct bs as [[[b0 b1] b2] b3]. reflexivity. Qed.

Lemma reachable_ids (m : Modality) (cfg : Config) (clock : State -> Env -> Prop)
    (st : State) :
  reachable m cfg clock st -> ids_well_formed st.
Proof.
  induction 1 as [|st env req Hr [Hu Ha] Hc].
  - split; constructor.
  - destruct (app_effect m cfg env st req)
      as [(Hs & _) | [(name & t & Hs & _) | (u0 & tl & _ & _ & Hs & _)]];
      rewrite Hs; split; simpl; try assumption.
    + apply Forall_app. split; [assumption|].
      repeat constructor. apply toHex_length.
    + apply Forall_app. split; [assumption|].
      repeat constructor. apply toHex_length.
Qed.

(** X7. In every state the servers can reach, whatever the clock does, each
    event of the ledger carries the id of the first enrolled user: the stubs
    never credit a scan to anyone else, and no event exists while nobody is
    enrolled. *)
Theorem every_event_credited_to_first_user (m : Modality) (cfg : Config)
    (clock : State -> Env -> Prop) (st : State) :
  reachable m cfg clock st -> credited_to_first st.
Proof.
  induction 1 as [|st env req Hr IH Hc].
  - intros r [].
  - destruct (app_effect m cfg env st req)
      as [(Hs & _) | [(name & t & Hs & _) | (u0 & tl & Hu & _ & Hs & _)]];
      rewrite Hs; intros r Hin; simpl in *.
    + apply IH, Hin.
    + destruct (IH r Hin) as (u0 & Hhd & Hid). exists u0. split; [|exact Hid].
      destruct (users st); [discriminate | exact Hhd].
    + rewrite Hu. simpl. exists u0. split; [reflexivity|].
      apply in_app_or in Hin. destruct Hin as [Hin | [<- | []]]; [|reflexivity].
      destruct (IH r Hin) as (u1 & Hhd & Hid). rewrite Hu in Hhd.
      injection Hhd as <-. exact Hid.
Qed.

Lemma every_event_credited_to_first_user_witness :
  credited_to_first (run Facial cfg0 (same_ms_scans Facial) initial_state).
Proof.
  apply (every_event_credited_to_first_user Facial cfg0 monotone_clock).
  apply run_reachable; [constructor|].
  cbn; unfold monotone_clock; cbn. repeat split; repeat constructor; cbn; lia.
Defined.

(** X8. Once somebody is enrolled, every authorised scan with a probe of accepted
    length succeeds in a reachable state: it is answered 200 and appends one
    event for the first enrolled user, stamped with the clock reading. *)
Theorem scan_succeeds_once_enrolled (m : Modality) (cfg : Config)
    (clock : State -> Env -> Prop) (env : Env) (st : State) (req : Request)
    (probe : list JValue) (u0 : User.t) (rest : list User.t) :
  reachable m cfg clock st ->
  users st = u0 :: rest ->
  calls cfg POST ["attendance"; "check_in_out"] req ->
  prop (probe_field m) (body req) = Some (JArr probe) ->
  accepted_length m (List.length probe) = true ->
  status (response (app m cfg env st req)) = 200
  /\ state (app m cfg env st req)
     = mkState (users st)
         (attendanceRecords st
          ++ [Attendance.mk (toHex (randomBytes4 env)) (User.id u0) (now env)
                (eventType (lastRecord (User.id u0) (attendanceRecords st))) (ip req)]).
Proof.
  intros Hr Hu (Hm & Hp & Ha) Hprobe Hacc.
  rewrite (app_scan_route m cfg env st req Hm Hp), Ha.
  pose proof (proj1 (reachable_ids m cfg clock st Hr)) as Hids.
  rewrite Hu in Hids. inversion Hids as [|? ? Hlen _]; subst.
  assert (Hne : (User.id u0 =? "") = false).
  { apply String.eqb_neq. intros E. rewrite E in Hlen. discriminate. }
  pose proof (accepted_length_floor m _ Hacc) as Hfloor.
  unfold check_in_out. rewrite Hprobe.
  destruct probe as [|x xs]; [destruct m; discriminate|].
  rewrite identifyUser_array, Hu, Hacc.
  destruct (Nat.ltb_spec (List.length (x :: xs)) (floor m)); [lia|].
  rewrite Hne. split; reflexivity.
Qed.

Lemma scan_succeeds_once_enrolled_witness :
  status (response (app Fingerprint cfg0 (env_at 2000 x01) (alice_enrolled Fingerprint)
                      (scan_req Fingerprint (numbers 50 0)))) = 200.
Proof.
  refine (proj1 (scan_succeeds_once_enrolled Fingerprint cfg0 monotone_clock
                   (env_at 2000 x01) (alice_enrolled Fingerprint)
                   (scan_req Fingerprint (numbers 50 0)) (numbers 50 0)
                   (User.mk "000000a1" (JStr "Alice") (numbers 120 7) 1000) []
                   _ eq_refl (conj eq_refl (conj eq_refl eq_refl)) eq_refl eq_refl)).
  apply (run_reachable Fingerprint cfg0 monotone_clock
           [(env_at 1000 xa1, enroll_req Fingerprint (JStr "Alice") (numbers 120 7))]);
    [constructor|].
  cbn; unfold monotone_clock; cbn. repeat split; constructor.
Defined.

(* ------------------------------------------------------------------ *)
(** ** Two scans in a row *)

Lemma lastRecord_after_later_event (userId : string) (records : list Attendance.t)
    (r1 : Attendance.t) :
  Attendance.userId r1 = userId ->
  Forall (fun r => Attendance.userId r = userId ->
                   (Attendance.timestamp r < Attendance.timestamp r1)%Z) records ->
  lastRecord userId (records ++ [r1]) = Some r1.
Proof.
  intros Hid Hlater. apply lastRecord_first_of_newest.
  rewrite records_of_snoc, Hid, String.eqb_refl.
  exists (records_of userId records), []. repeat split; [|constructor].
  apply Forall_forall. intros r Hr. apply filter_In in Hr. destruct Hr as [Hin Heq].
  rewrite Forall_forall in Hlater. apply Hlater; [exact Hin|].
  now apply String.eqb_eq.
Qed.

Lemma scan_recorded (m : Modality) (cfg : Config) (env : Env) (st : State) (req : Request) :
  calls cfg POST ["attendance"; "check_in_out"] req ->
  status (response (app m cfg env st req)) = 200 ->
  exists u0 rest,
    users st = u0 :: rest
    /\ state (app m cfg env st req)
       = mkState (users st)
           (attendanceRecords st
            ++ [Attendance.mk (toHex (randomBytes4 env)) (User.id u0) (now env)
                  (eventType (lastRecord (User.id u0) (attendanceRecords st))) (ip req)]).
Proof.
  intros (Hm & Hp & Ha). rewrite (app_scan_route m cfg env st req Hm Hp), Ha.
  destruct (check_in_out_cases m env st req)
    as [(Hr & _) | [(x & xs & lines & _ & _ & Hr & _)
                   | (x & xs & lines & userId & _ & Hid & _ & Hr & Hs & _)]];
    simpl; rewrite Hr; try discriminate.
  intros _. destruct (identifyUser_found_first m _ _ _ _ Hid) as (u0 & rest & Hu & -> & _).
  exists u0, rest. split; [exact Hu | exact Hs].
Qed.

(** X9. Two successful scans handled one right after the other record events for
    the same identity, and when the first is stamped later than every earlier
    event of that identity the second has the opposite type, whatever the
    clock reads at the second scan. *)
Theorem consecutive_scans_toggle (m : Modality) (cfg : Config) (env1 env2 : Env)
    (st : State) (req1 req2 : Request) :
  calls cfg POST ["attendance"; "check_in_out"] req1 ->
  calls cfg POST ["attendance"; "check_in_out"] req2 ->
  status (response (app m cfg env1 st req1)) = 200 ->
  status (response (app m cfg env2 (state (app m cfg env1 st req1)) req2)) = 200 ->
  exists r1 r2,
    attendanceRecords (state (app m cfg env2 (state (app m cfg env1 st req1)) req2))
    = attendanceRecords st ++ [r1; r2]
    /\ Attendance.userId r2 = Attendance.userId r1
    /\ Attendance.timestamp r1 = now env1
    /\ Attendance.timestamp r2 = now env2
    /\ (Forall (fun r => Attendance.userId r = Attendance.userId r1 ->
                         (Attendance.timestamp r < now env1)%Z) (attendanceRecords st) ->
        Attendance.type r2 = opposite (Attendance.type r1)).
Proof.
  intros Hc1 Hc2 H1 H2.
  destruct (scan_recorded m cfg env1 st req1 Hc1 H1) as (u0 & rest & Hu & Hs1).
  destruct (scan_recorded m cfg env2 _ req2 Hc2 H2) as (u1 & rest1 & Hu1 & Hs2).
  rewrite Hs2, Hs1 in *. simpl in *. rewrite Hu in Hu1. injection Hu1 as <- <-.
  eexists. eexists. split; [rewrite <- app_assoc; reflexivity|].
  simpl. repeat split.
  intros Hlater.
  rewrite lastRecord_after_later_event; [|reflexivity | exact Hlater].
  simpl. now destruct (eventType (lastRecord (User.id u0) (attendanceRecords st))).
Qed.

Lemma consecutive_scans_toggle_witness :
  exists r1 r2,
    attendanceRecords
      (state (app Facial cfg0 (env_at 1500 x02)
                (state (app Facial cfg0 (env_at 2000 x01) (alice_enrolled Facial)
                          (scan_req Facial (numbers 120 7))))
                (scan_req Facial (numbers 120 7))))
    = attendanceRecords (alice_enrolled Facial) ++ [r1; r2]
    /\ Attendance.type r1 = IN
    /\ Attendance.type r2 = OUT.
Proof.
  destruct (consecutive_scans_toggle Facial cfg0 (env_at 2000 x01) (env_at 1500 x02)
              (alice_enrolled Facial) (scan_req Facial (numbers 120 7))
              (scan_req Facial (numbers 120 7))
              (conj eq_refl (conj eq_refl eq_refl))
              (conj eq_refl (conj eq_refl eq_refl)) eq_refl eq_refl)
    as (r1 & r2 & Hrec & _ & _ & _ & Htoggle).
  exists r1, r2. split; [exact Hrec|].
  assert (Hlist : [r1; r2]
                  = [Attendance.mk "00000001" "000000a1" 2000 IN "10.0.0.7";
                     Attendance.mk "00000002" "000000a1" 1500 OUT "10.0.0.7"]).
  { apply (app_inv_head (attendanceRecords (alice_enrolled Facial))).
    rewrite <- Hrec. vm_compute. reflexivity. }
  injection Hlist as -> ->. split; reflexivity.
Defined.

(* ------------------------------------------------------------------ *)
(** ** Enrollment and report, case by case *)

(** X10. An authorised enrollment is answered 201 or 400 and nothing else: 201
    exactly when the name is truthy and the template is a non-empty array,
    400 otherwise, and a 400 leaves the store untouched. *)
Theorem enrollment_outcomes (m : Modality) (cfg : Config) (env : Env) (st : State)
    (req : Request) :
  calls cfg POST ["users"; "enroll"] req ->
  (status (response (app m cfg env st req)) = 201
   \/ status (response (app m cfg env st req)) = 400)
  /\ (status (response (app m cfg env st req)) = 201
      <-> exists name x xs,
          prop "name" (body req) = Some name /\ truthy name = true
          /\ prop (template_field m) (body req) = Some (JArr (x :: xs)))
  /\ (status (response (app m cfg env st req)) = 400 ->
      state (app m cfg env st req) = st).
Proof.
  intros (Hm & Hp & Ha). rewrite (app_enroll_route m cfg env st req Hm Hp), Ha.
  destruct (enroll_effect m env st req)
    as [[He Hno] | (name & x & xs & Hn & Ht & Hv & He)]; rewrite He; simpl.
  - split; [now right|]. split; [|reflexivity].
    split; [discriminate | intros H; contradiction].
  - split; [now left|]. split; [|discriminate].
    split; [intros _; exists name, x, xs; auto | reflexivity].
Qed.

Lemma enrollment_outcomes_witness :
  status (response (app Facial cfg0 (env_at 1000 xa1) initial_state
                      (enroll_req Facial (JStr "") (numbers 120 7)))) = 400
  /\ state (app Facial cfg0 (env_at 1000 xa1) initial_state
              (enroll_req Facial (JStr "") (numbers 120 7))) = initial_state.
Proof.
  destruct (enrollment_outcomes Facial cfg0 (env_at 1000 xa1) initial_state
              (enroll_req Facial (JStr "") (numbers 120 7))
              (conj eq_refl (conj eq_refl eq_refl)))
    as (_ & _ & H400).
  split; [reflexivity | apply H400; reflexivity].
Defined.

(** X11. An authorised report filtered on the id of an enrolled user is answered
    200, counts that user's events, lists every one of them and lists no
    event of anybody else. *)
Theorem filtered_report_isolates_user (m : Modality) (cfg : Config) (env : Env)
    (st : State) (req : Request) (userId : string) (u : User.t) :
  calls cfg GET ["attendance"; "report"] req ->
  query_userId req = Some userId ->
  userId <> "" ->
  In u (users st) ->
  User.id u = userId ->
  exists listing,
    response (app m cfg env st req)
    = mkResponse 200
        (BReport (List.length (records_of userId (attendanceRecords st))) listing)
    /\ Forall (fun d => Attendance.userId (Detailed.record d) = userId) listing
    /\ (forall r, In r (attendanceRecords st) -> Attendance.userId r = userId ->
                  In (detail (users st) r) listing).
Proof.
  intros (Hm & Hp & Ha) Hq Hne Hin Hid.
  rewrite (app_report_route m cfg env st req Hm Hp), Ha.
  unfold report, report_ok. rewrite Hq.
  destruct (String.eqb_spec userId ""); [contradiction|].
  assert (He : existsb (fun u' => User.id u' =? userId) (users st) = true).
  { apply existsb_exists. exists u. split; [exact Hin | now apply String.eqb_eq]. }
  rewrite He. simpl.
  exists (detailedReport (users st) (records_of userId (attendanceRecords st))).
  split; [|split].
  - unfold detailedReport. now rewrite js_sort_length, length_map.
  - apply Forall_forall. intros d Hd.
    apply (Permutation_in _ (detailedReport_perm _ _)) in Hd.
    apply in_map_iff in Hd. destruct Hd as (r & <- & Hr).
    apply filter_In in Hr. simpl. now apply String.eqb_eq.
  - intros r Hr Hu.
    apply (Permutation_in _ (Permutation_sym (detailedReport_perm _ _))).
    apply in_map. apply filter_In. split; [exact Hr | now apply String.eqb_eq].
Qed.

Lemma filtered_report_isolates_user_witness :
  exists listing,
    response (app Facial cfg0 (env_at 3000 x00)
                (run Facial cfg0 (same_ms_scans Facial) initial_state)
                (report_req (Some "s3cr3t") (Some "000000a1")))
    = mkResponse 200 (BReport 3 listing)
    /\ Forall (fun d => Attendance.userId (Detailed.record d) = "000000a1") listing.
Proof.
  destruct (filtered_report_isolates_user Facial cfg0 (env_at 3000 x00)
              (run Facial cfg0 (same_ms_scans Facial) initial_state)
              (report_req (Some "s3cr3t") (Some "000000a1")) "000000a1"
              (User.mk "000000a1" (JStr "Alice") (numbers 120 7) 1000)
              (conj eq_refl (conj eq_refl eq_refl)) eq_refl)
    as (listing & Hr & Hall & _).
  - discriminate.
  - left. reflexivity.
  - reflexivity.
  - exists listing. split; [exact Hr | exact Hall].
Defined.

(* ------------------------------------------------------------------ *)
(** ** The key the servers start with *)

Lemma hex_of_byte_length (b : byte) : String.length (hex_of_byte b) = 2.
Proof. reflexivity. Qed.

Lemma hex_of_bytes_length (bs : list byte) :
  String.length (hex_of_bytes bs) = 2 * List.length bs.
Proof.
  induction bs as [|b bs IH]; [reflexivity|].
  change (String.length (hex_of_bytes (b :: bs)))
    with (S (S (String.length (hex_of_bytes bs)))).
  rewrite IH. simpl. lia.
Qed.

Lemma apiAuth_nonempty_key (key : string) (req : Request) :
  key <> "" ->
  (apiAuth (mkConfig key) req = true <-> x_api_key req = Some key).
Proof.
  intros Hne. split; [apply apiAuth_true|].
  unfold apiAuth. intros ->. simpl.
  rewrite String.eqb_refl. apply String.eqb_neq in Hne. now rewrite Hne.
Qed.

(** X12. The in-memory servers never start with an empty key: an unset or empty
    environment variable is replaced by 64 hex digits.  The database-backed
    server refuses to start in that case and otherwise uses the variable.
    Under the key a server starts with, a request passes the gate exactly
    when its header equals the key. *)
Theorem startup_key_gate (ATTENDANCE_API_KEY : option string) (random32 : list byte)
    (req : Request) :
  List.length random32 = 32 ->
  startup_key ATTENDANCE_API_KEY random32 <> ""
  /\ (ATTENDANCE_API_KEY = None \/ ATTENDANCE_API_KEY = Some "" ->
      String.length (startup_key ATTENDANCE_API_KEY random32) = 64)
  /\ (apiAuth (mkConfig (startup_key ATTENDANCE_API_KEY random32)) req = true
      <-> x_api_key req = Some (startup_key ATTENDANCE_API_KEY random32))
  /\ (required_startup_key ATTENDANCE_API_KEY = None
      <-> ATTENDANCE_API_KEY = None \/ ATTENDANCE_API_KEY = Some "")
  /\ (forall key,
         required_startup_key ATTENDANCE_API_KEY = Some key ->
         ATTENDANCE_API_KEY = Some key /\ key <> ""
         /\ (apiAuth (mkConfig key) req = true <-> x_api_key req = Some key)).
Proof.
  intros Hlen.
  assert (Hrandom : String.length (hex_of_bytes random32) = 64)
    by (rewrite hex_of_bytes_length, Hlen; reflexivity).
  assert (Hne : startup_key ATTENDANCE_API_KEY random32 <> "").
  { unfold startup_key. destruct ATTENDANCE_API_KEY as [key|].
    - destruct (String.eqb_spec key ""); [|assumption].
      intros E. rewrite E in Hrandom. discriminate.
    - intros E. rewrite E in Hrandom. discriminate. }
  split; [exact Hne|]. split; [|split; [|split]].
  - intros [-> | ->]; exact Hrandom.
  - now apply apiAuth_nonempty_key.
  - unfold required_startup_key. destruct ATTENDANCE_API_KEY as [key|].
    + destruct (String.eqb_spec key "") as [->|Hk].
      * split; auto.
      * split; [discriminate|]. intros [H | H]; [discriminate | congruence].
    + split; auto.
  - intros key. unfold required_startup_key. destruct ATTENDANCE_API_KEY as [k|];
      [|discriminate].
    destruct (String.eqb_spec k "") as [->|Hk]; [discriminate|].
    intros [= <-]. split; [reflexivity|]. split; [exact Hk|].
    now apply apiAuth_nonempty_key.
Qed.

Lemma startup_key_gate_witness :
  startup_key (Some "") (repeat xff 32) <> ""
  /\ String.length (startup_key (Some "") (repeat xff 32)) = 64.
Proof.
  destruct (startup_key_gate (Some "") (repeat xff 32) health_req eq_refl)
    as (Hne & Hlen & _).
  split; [exact Hne | apply Hlen; now right].
Defined.

(* ================================================================== *)
(** * Further properties of the database-backed server *)

Lemma mongo_identify_array (d : Mongo.Db) (probe : list JValue) :
  Mongo.identifyUserFromFingerprint d (JArr probe)
  = if Nat.ltb (List.length probe) 50 then Some None
    else if Mongo.connected d then
           Some (option_map Mongo.UserDoc._id (hd_error (Mongo.User d)))
         else None.
Proof.
  cbv beta iota delta [Mongo.identifyUserFromFingerprint length_lt js_length truthy
                       isArray negb orb].
  destruct (Nat.ltb (List.length probe) 50); [reflexivity|].
  destruct (Mongo.connected d); [|reflexivity].
  now destruct (Mongo.User d).
Qed.

(** X13. Malformed input is turned away before any database call is made, so the
    answer is the same whether or not the database responds: an enrollment
    without a truthy name or a non-empty template array is answered 400, a
    scan without a non-empty probe array 400, and a scan with a probe of
    fewer than 50 entries 404; the collections are left as they are. *)
Theorem mongo_validation_precedes_database (drv : MongoApi.Driver) (env : MongoApi.MEnv)
    (d : Mongo.Db) (req : Request) :
  (~ (exists name x xs,
         prop "name" (body req) = Some name /\ truthy name = true
         /\ prop "fingerprintTemplate" (body req) = Some (JArr (x :: xs))) ->
   MongoApi.enroll drv env d req
   = MongoApi.mkOutcome 400 (MongoApi.Message MongoApi.enroll_missing) d)
  /\ ((forall x xs, prop "incomingTemplate" (body req) <> Some (JArr (x :: xs))) ->
      MongoApi.check_in_out drv env d req
      = MongoApi.mkOutcome 400
          (MongoApi.Message [Lit "Missing required field: incomingTemplate."]) d)
  /\ (forall probe,
         prop "incomingTemplate" (body req) = Some (JArr probe) ->
         1 <= List.length probe < 50 ->
         MongoApi.check_in_out drv env d req
         = MongoApi.mkOutcome 404
             (MongoApi.Message [Lit "Fingerprint not recognized. Please try again."]) d).
Proof.
  split; [|split].
  - intros Hno. unfold MongoApi.enroll.
    destruct (prop "name" (body req)) as [name|]; [|reflexivity].
    destruct (prop "fingerprintTemplate" (body req)) as [[| | | |[|x xs]|]|];
      try reflexivity.
    destruct (truthy name) eqn:Ht; [|reflexivity].
    exfalso. apply Hno. exists name, x, xs. auto.
  - intros Hno. unfold MongoApi.check_in_out.
    destruct (prop "incomingTemplate" (body req)) as [[| | | |[|x xs]|]|];
      try reflexivity.
    exfalso. now apply (Hno x xs).
  - intros probe Hp [H1 H50]. unfold MongoApi.check_in_out. rewrite Hp.
    destruct probe as [|x xs]; [simpl in H1; lia|].
    rewrite mongo_identify_array.
    destruct (Nat.ltb_spec (List.length (x :: xs)) 50); [reflexivity | lia].
Qed.

Lemma mongo_validation_precedes_database_witness :
  MongoApi.check_in_out MongoApi.sample_driver
    (MongoApi.mkMEnv 2000 "65f1a2b3c4d5e6f708192a3b" MongoApi.all_reject)
    (Mongo.mkDb false [] []) (MongoApi.mongo_scan_req (repeat (JNum 7) 10))
  = MongoApi.mkOutcome 404
      (MongoApi.Message [Lit "Fingerprint not recognized. Please try again."])
      (Mongo.mkDb false [] []).
Proof.
  refine (proj2 (proj2 (mongo_validation_precedes_database MongoApi.sample_driver
                          (MongoApi.mkMEnv 2000 "65f1a2b3c4d5e6f708192a3b"
                             MongoApi.all_reject)
                          (Mongo.mkDb false [] [])
                          (MongoApi.mongo_scan_req (repeat (JNum 7) 10))))
            (repeat (JNum 7) 10) eq_refl _).
  simpl. lia.
Defined.

Lemma findOne_name_some (us : list Mongo.UserDoc.t) (s : string) (u : Mongo.UserDoc.t) :
  MongoApi.findOne_name us s = Some u -> In u us /\ Mongo.UserDoc.name u = s.
Proof.
  intros H. apply find_some in H. destruct H as [Hin Heq].
  split; [exact Hin | now apply String.eqb_eq].
Qed.

Lemma findOne_name_none (us : list Mongo.UserDoc.t) (s : string) :
  MongoApi.findOne_name us s = None -> ~ In s (map Mongo.UserDoc.name us).
Proof.
  intros H Hin. apply in_map_iff in Hin. destruct Hin as (u & Hn & Hu).
  pose proof (find_none _ _ H u Hu) as Hf. simpl in Hf.
  apply String.eqb_neq in Hf. contradiction.
Qed.

(** X14. Enrollment under a name that is a string keeps names unique: when a
    student of that name is on file and the lookup goes through, the answer
    is 409 and nothing is stored; in every case, if no two students on file
    shared a name before the request, none do after it. *)
Theorem mongo_enroll_keeps_names_unique (drv : MongoApi.Driver) (env : MongoApi.MEnv)
    (d : Mongo.Db) (req : Request) (s : string) :
  prop "name" (body req) = Some (JStr s) ->
  (NoDup (map Mongo.UserDoc.name (Mongo.User d)) ->
   NoDup (map Mongo.UserDoc.name (Mongo.User (MongoApi.db (MongoApi.enroll drv env d req)))))
  /\ (forall x xs,
         s <> "" ->
         prop "fingerprintTemplate" (body req) = Some (JArr (x :: xs)) ->
         MongoApi.ok d env 0 = true ->
         In s (map Mongo.UserDoc.name (Mongo.User d)) ->
         MongoApi.status (MongoApi.enroll drv env d req) = 409
         /\ MongoApi.db (MongoApi.enroll drv env d req) = d).
Proof.
  intros Hn. split.
  - intros Hnd. unfold MongoApi.enroll. rewrite Hn.
    destruct (prop "fingerprintTemplate" (body req)) as [[| | | |[|x xs]|]|];
      try exact Hnd.
    destruct (truthy (JStr s)); [|exact Hnd].
    destruct (MongoApi.ok d env 0); [|exact Hnd].
    destruct (MongoApi.findOne_name (Mongo.User d) s) eqn:Ef; [exact Hnd|].
    destruct (MongoApi.ok d env 1); [|exact Hnd].
    simpl. rewrite map_app. simpl.
    apply NoDup_app; [exact Hnd | repeat constructor; intros [] |].
    intros a Ha [<- | []]. exact (findOne_name_none _ _ Ef Ha).
  - intros x xs Hne Ht Hok Hin. unfold MongoApi.enroll. rewrite Hn, Ht.
    assert (Htr : truthy (JStr s) = true)
      by (simpl; apply String.eqb_neq in Hne; now rewrite Hne).
    rewrite Htr, Hok.
    destruct (MongoApi.findOne_name (Mongo.User d) s) eqn:Ef; [split; reflexivity|].
    exfalso. exact (findOne_name_none _ _ Ef Hin).
Qed.

Lemma mongo_enroll_keeps_names_unique_witness :
  MongoApi.status
    (MongoApi.enroll MongoApi.sample_driver
       (MongoApi.mkMEnv 2000 "65f1a2b3c4d5e6f708192a3b" MongoApi.never_rejects)
       MongoApi.carol_db (MongoApi.mongo_enroll_req (JStr "Carol") (repeat (JNum 1) 60)))
  = 409.
Proof.
  refine (proj1 (proj2 (mongo_enroll_keeps_names_unique MongoApi.sample_driver
                          (MongoApi.mkMEnv 2000 "65f1a2b3c4d5e6f708192a3b"
                             MongoApi.never_rejects)
                          MongoApi.carol_db
                          (MongoApi.mongo_enroll_req (JStr "Carol") (repeat (JNum 1) 60))
                          "Carol" eq_refl)
                  (JNum 1) (repeat (JNum 1) 59) _ eq_refl eq_refl _)).
  - discriminate.
  - left. reflexivity.
Defined.

(** X15. A scan with a probe of at least 50 entries, with somebody on file, stores
    its event exactly when the first three database calls go through (find
    the users, find the latest event, save).  It is answered 200 only if the
    fourth call, the name lookup, goes through as well: when that lookup
    rejects, the answer is 500 although the event has been stored. *)
Theorem mongo_scan_stores_before_name_lookup (drv : MongoApi.Driver) (env : MongoApi.MEnv)
    (d : Mongo.Db) (req : Request) (probe : list JValue)
    (u0 : Mongo.UserDoc.t) (rest : list Mongo.UserDoc.t) :
  prop "incomingTemplate" (body req) = Some (JArr probe) ->
  50 <= List.length probe ->
  Mongo.User d = u0 :: rest ->
  (MongoApi.ok d env 0 && MongoApi.ok d env 1 && MongoApi.ok d env 2 = true ->
   MongoApi.db (MongoApi.check_in_out drv env d req)
   = Mongo.mkDb (Mongo.connected d) (Mongo.User d)
       (Mongo.Attendance d
        ++ [Mongo.AttendanceDoc.mk (MongoApi.newObjectId env) (Mongo.UserDoc._id u0)
              (MongoApi.mnow env)
              (MongoApi.eventType
                 (MongoApi.latest drv (Mongo.UserDoc._id u0) (Mongo.Attendance d)))
              (ip req)])
   /\ MongoApi.status (MongoApi.check_in_out drv env d req)
      = if MongoApi.ok d env 3 then 200 else 500)
  /\ (MongoApi.ok d env 0 && MongoApi.ok d env 1 && MongoApi.ok d env 2 = false ->
      MongoApi.db (MongoApi.check_in_out drv env d req) = d
      /\ MongoApi.status (MongoApi.check_in_out drv env d req) = 500).
Proof.
  intros Hp Hlen Hu. unfold MongoApi.check_in_out. rewrite Hp.
  destruct probe as [|x xs]; [simpl in Hlen; lia|].
  rewrite mongo_identify_array. cbn [Mongo.connected Mongo.User].
  destruct (Nat.ltb_spec (List.length (x :: xs)) 50); [lia|].
  rewrite Hu. cbn [hd_error option_map].
  destruct (MongoApi.ok d env 0), (MongoApi.ok d env 1), (MongoApi.ok d env 2);
    cbn [andb]; (split; [intros Hall | intros Hnot]); try discriminate;
    try (split; reflexivity).
  destruct (MongoApi.ok d env 3); split; reflexivity.
Qed.

Lemma mongo_scan_stores_before_name_lookup_witness :
  MongoApi.status
    (MongoApi.check_in_out MongoApi.sample_driver
       (MongoApi.mkMEnv 2000 "65f1a2b3c4d5e6f708192a3b" MongoApi.name_lookup_rejects)
       MongoApi.carol_db (MongoApi.mongo_scan_req (repeat (JNum 7) 60)))
  = 500
  /\ List.length
       (Mongo.Attendance
          (MongoApi.db
             (MongoApi.check_in_out MongoApi.sample_driver
                (MongoApi.mkMEnv 2000 "65f1a2b3c4d5e6f708192a3b"
                   MongoApi.name_lookup_rejects)
                MongoApi.carol_db (MongoApi.mongo_scan_req (repeat (JNum 7) 60)))))
     = 1.
Proof.
  destruct (proj1 (mongo_scan_stores_before_name_lookup MongoApi.sample_driver
                     (MongoApi.mkMEnv 2000 "65f1a2b3c4d5e6f708192a3b"
                        MongoApi.name_lookup_rejects)
                     MongoApi.carol_db (MongoApi.mongo_scan_req (repeat (JNum 7) 60))
                     (repeat (JNum 7) 60)
                     (Mongo.UserDoc.mk "507f1f77bcf86cd799439011" "Carol"
                        (repeat (JNum 7) 60) 1000) []
                     eq_refl (proj1 (Nat.leb_le 50 60) eq_refl) eq_refl) eq_refl)
    as [Hdb Hst].
  split; [exact Hst|]. rewrite Hdb. reflexivity.
Defined.
